(** * CloudConnection: the delayed connection-status banner

    A shallow embedding of
    [mobile/src/components/misc/CloudConnection.tsx].

    The component reads the websocket status from the connection store,
    hides its banner as soon as the status is CONNECTED and reveals a
    non-connected status only once it has lasted [DISCONNECTION_DELAY]
    milliseconds.  The file models

    - the two pure display functions [getGradientColors] and [getIcon];
    - the component's cells ([useState] values and [useRef] refs) together
      with the part of the host they talk to (connection store, clock,
      timer table, the applets refresh hook) as one record [World];
    - the [useEffect] closure ([onStatusChanged]), its cleanup and the
      [setTimeout] callback, by explicit state passing;
    - React's scheduling of the effect (after mount and after every render
      in which one of the dependencies [connectionStatus],
      [hideCloudConnection] changed) and the host's firing of timers.

    Times are integer milliseconds ([Date.now()]).  A handler runs at one
    instant: every [Date.now()] inside it reads the same clock value.  The
    clock never runs backwards (an event stamped before the current time
    happens now), and a timer fires exactly at its deadline. *)

From Stdlib Require Import ZArith List Bool String Lia.
Import ListNotations.
Local Open Scope string_scope.
Local Open Scope Z_scope.

(** ** Connection status *)

(** The enum [WebSocketStatus] of [@/services/WebSocketManager].  Types are
    erased at run time, so the [default:] arms of the two switches can be
    reached; [OTHER tag] stands for any run-time value that is none of the
    four enum members. *)
Inductive WebSocketStatus : Type :=
  | CONNECTED
  | CONNECTING
  | ERROR
  | DISCONNECTED
  | OTHER (tag : string).

(** JavaScript's [===] on status values. *)
Definition status_eqb (a b : WebSocketStatus) : bool :=
  match a, b with
  | CONNECTED, CONNECTED => true
  | CONNECTING, CONNECTING => true
  | ERROR, ERROR => true
  | DISCONNECTED, DISCONNECTED => true
  | OTHER x, OTHER y => String.eqb x y
  | _, _ => false
  end.

(** ** Display mapping *)

Record IconInfo : Type := mkIcon {
  name : string;
  color : string;
  label : string
}.

Record Display : Type := mkDisplay {
  gradientColors : list string;
  iconName : string;
  iconColor : string;
  statusLabel : string
}.

Section DisplayMapping.

(** [translate] of [@/i18n], taken as given. *)
Variable translate : string -> string.

Definition getGradientColors (connectionStatus : WebSocketStatus) : list string :=
  match connectionStatus with
  | CONNECTED => ["#4CAF50"; "#81C784"]
  | CONNECTING => ["#FFA726"; "#FB8C00"]
  | ERROR => ["#FFC107"; "#FFD54F"]
  | _ => ["#FF8A80"; "#FF5252"]
  end.

Definition getIcon (connectionStatus : WebSocketStatus) : IconInfo :=
  match connectionStatus with
  | CONNECTED =>
      {| name := "check-circle"; color := "#4CAF50";
         label := translate "connection:connected" |}
  | CONNECTING =>
      {| name := "spinner"; color := "#FB8C00";
         label := translate "connection:connecting" |}
  | ERROR =>
      {| name := "refresh"; color := "#FFD54F";
         label := translate "connection:reconnecting" |}
  | _ =>
      {| name := "exclamation-circle"; color := "#FF5252";
         label := translate "connection:disconnected" |}
  end.

(** What the render puts on screen for [delayedStatus]
    (lines 78 and 144-148). *)
Definition currentDisplay (delayedStatus : WebSocketStatus) : Display :=
  let i := getIcon delayedStatus in
  {| gradientColors := getGradientColors delayedStatus;
     iconName := name i;
     iconColor := color i;
     statusLabel := label i |}.

End DisplayMapping.

(** ** The component's cells and its host *)

(** Handles returned by [setTimeout] are positive integers, hence truthy. *)
Definition TimerId : Type := positive.

Record World : Type := mkWorld {
  (* component: useState / useRef / useSharedValue cells *)
  hideCloudConnection : bool;
  delayedStatus : WebSocketStatus;
  disconnectionTimerRef : option TimerId;
  firstDisconnectedTimeRef : option Z;
  cloudConnectionStatusAnim : Z;
  (* React: dependencies seen by the last run of the effect *)
  effectDeps : option (WebSocketStatus * bool);
  (* host *)
  storeStatus : WebSocketStatus;       (* useConnectionStore.getState().status *)
  clock : Z;                           (* Date.now() *)
  timers : list (TimerId * Z);         (* pending timeouts: handle, deadline *)
  nextTimerId : TimerId;
  (* observations *)
  refreshCalls : nat;                  (* calls of refreshApplets() *)
  reveals : nat                        (* renders that turned the banner on *)
}.

Definition DISCONNECTION_DELAY : Z := 5000.

(** *** Cell updates *)

Definition setDelayedStatus (s : WebSocketStatus) (w : World) : World :=
  mkWorld (hideCloudConnection w) s (disconnectionTimerRef w)
    (firstDisconnectedTimeRef w) (cloudConnectionStatusAnim w) (effectDeps w)
    (storeStatus w) (clock w) (timers w) (nextTimerId w)
    (refreshCalls w) (reveals w).

(** [setHideCloudConnection]; a change from hidden to shown makes the next
    render return the banner instead of [null] (line 138), which [reveals]
    counts. *)
Definition setHideCloudConnection (b : bool) (w : World) : World :=
  mkWorld b (delayedStatus w) (disconnectionTimerRef w)
    (firstDisconnectedTimeRef w) (cloudConnectionStatusAnim w) (effectDeps w)
    (storeStatus w) (clock w) (timers w) (nextTimerId w)
    (refreshCalls w)
    (if hideCloudConnection w && negb b then S (reveals w) else reveals w).

Definition setTimerRef (h : option TimerId) (w : World) : World :=
  mkWorld (hideCloudConnection w) (delayedStatus w) h
    (firstDisconnectedTimeRef w) (cloudConnectionStatusAnim w) (effectDeps w)
    (storeStatus w) (clock w) (timers w) (nextTimerId w)
    (refreshCalls w) (reveals w).

Definition setFirstDisconnectedTime (t : option Z) (w : World) : World :=
  mkWorld (hideCloudConnection w) (delayedStatus w) (disconnectionTimerRef w)
    t (cloudConnectionStatusAnim w) (effectDeps w)
    (storeStatus w) (clock w) (timers w) (nextTimerId w)
    (refreshCalls w) (reveals w).

(** [cloudConnectionStatusAnim.value = withTiming(v, ...)]: the value the
    opacity animates to. *)
Definition setAnim (v : Z) (w : World) : World :=
  mkWorld (hideCloudConnection w) (delayedStatus w) (disconnectionTimerRef w)
    (firstDisconnectedTimeRef w) v (effectDeps w)
    (storeStatus w) (clock w) (timers w) (nextTimerId w)
    (refreshCalls w) (reveals w).

Definition setEffectDeps (d : option (WebSocketStatus * bool)) (w : World) : World :=
  mkWorld (hideCloudConnection w) (delayedStatus w) (disconnectionTimerRef w)
    (firstDisconnectedTimeRef w) (cloudConnectionStatusAnim w) d
    (storeStatus w) (clock w) (timers w) (nextTimerId w)
    (refreshCalls w) (reveals w).

Definition setStoreStatus (s : WebSocketStatus) (w : World) : World :=
  mkWorld (hideCloudConnection w) (delayedStatus w) (disconnectionTimerRef w)
    (firstDisconnectedTimeRef w) (cloudConnectionStatusAnim w) (effectDeps w)
    s (clock w) (timers w) (nextTimerId w)
    (refreshCalls w) (reveals w).

Definition setClock (t : Z) (w : World) : World :=
  mkWorld (hideCloudConnection w) (delayedStatus w) (disconnectionTimerRef w)
    (firstDisconnectedTimeRef w) (cloudConnectionStatusAnim w) (effectDeps w)
    (storeStatus w) t (timers w) (nextTimerId w)
    (refreshCalls w) (reveals w).

Definition setTimers (l : list (TimerId * Z)) (w : World) : World :=
  mkWorld (hideCloudConnection w) (delayedStatus w) (disconnectionTimerRef w)
    (firstDisconnectedTimeRef w) (cloudConnectionStatusAnim w) (effectDeps w)
    (storeStatus w) (clock w) l (nextTimerId w)
    (refreshCalls w) (reveals w).

(** *** Host calls *)

Definition dropTimer (h : TimerId) (l : list (TimerId * Z)) : list (TimerId * Z) :=
  filter (fun x => negb (Pos.eqb (fst x) h)) l.

Definition clearTimeout (h : TimerId) (w : World) : World :=
  setTimers (dropTimer h (timers w)) w.

(** [setTimeout(callback, delay)]: a fresh handle, due [delay] ms from now
    (a negative delay counts as zero).  Every timeout of this component
    carries the same closure, [timerCallback] below, so the table keeps
    only handle and deadline. *)
Definition setTimeout (delay : Z) (w : World) : TimerId * World :=
  let h := nextTimerId w in
  (h, mkWorld (hideCloudConnection w) (delayedStatus w) (disconnectionTimerRef w)
        (firstDisconnectedTimeRef w) (cloudConnectionStatusAnim w) (effectDeps w)
        (storeStatus w) (clock w)
        (timers w ++ [(h, clock w + Z.max 0 delay)]) (Pos.succ h)
        (refreshCalls w) (reveals w)).

Definition refreshApplets (w : World) : World :=
  mkWorld (hideCloudConnection w) (delayedStatus w) (disconnectionTimerRef w)
    (firstDisconnectedTimeRef w) (cloudConnectionStatusAnim w) (effectDeps w)
    (storeStatus w) (clock w) (timers w) (nextTimerId w)
    (S (refreshCalls w)) (reveals w).

(** ** The effect *)

(** Lines 83-86 and, again, the cleanup at lines 127-130. *)
Definition cancelPendingTimer (w : World) : World :=
  match disconnectionTimerRef w with
  | Some h => setTimerRef None (clearTimeout h w)
  | None => w
  end.

(** The closure given to [setTimeout] (lines 110-118): it reads the store,
    not the [connectionStatus] of the render that scheduled it. *)
Definition timerCallback (w : World) : World :=
  let currentStatus := storeStatus w in
  if negb (status_eqb currentStatus CONNECTED) then
    setAnim 1 (setHideCloudConnection false (setDelayedStatus currentStatus w))
  else w.

(** [firstDisconnectedTimeRef.current || 0]. *)
Definition orZero (o : option Z) : Z :=
  match o with
  | Some t => t
  | None => 0
  end.

(** The body of the [useEffect] closure (lines 80-124), run for the
    [connectionStatus] of the current render. *)
Definition onStatusChanged (connectionStatus : WebSocketStatus) (w : World) : World :=
  let w := cancelPendingTimer w in
  let w :=
    if status_eqb connectionStatus CONNECTED then
      setAnim 0
        (setHideCloudConnection true
           (setDelayedStatus connectionStatus
              (setFirstDisconnectedTime None w)))
    else
      let w :=
        match firstDisconnectedTimeRef w with
        | None => setFirstDisconnectedTime (Some (clock w)) w
        | Some _ => w
        end in
      let timeSinceLeftConnected := clock w - orZero (firstDisconnectedTimeRef w) in
      if DISCONNECTION_DELAY <=? timeSinceLeftConnected then
        setAnim 1
          (setHideCloudConnection false (setDelayedStatus connectionStatus w))
      else
        let remainingDelay := DISCONNECTION_DELAY - timeSinceLeftConnected in
        let (h, w) := setTimeout remainingDelay w in
        setTimerRef (Some h) w
  in
  if status_eqb connectionStatus CONNECTED || status_eqb connectionStatus DISCONNECTED
  then refreshApplets w
  else w.

(** The function the effect returns (lines 126-131). *)
Definition effectCleanup (w : World) : World := cancelPendingTimer w.

(** What the component's consumers see (lines 138-153). *)
Definition shouldDisplay (w : World) : bool := negb (hideCloudConnection w).

(** ** React: when the effect runs *)

(** The dependency array [[connectionStatus, hideCloudConnection]] of the
    current render; [connectionStatus] is the store's status (line 16). *)
Definition currentDeps (w : World) : WebSocketStatus * bool :=
  (storeStatus w, hideCloudConnection w).

Definition deps_eqb (a b : WebSocketStatus * bool) : bool :=
  status_eqb (fst a) (fst b) && Bool.eqb (snd a) (snd b).

(** The effect runs after the first render and after each render whose
    dependencies differ from those of its last run. *)
Definition depsChanged (w : World) : bool :=
  match effectDeps w with
  | None => true
  | Some d => negb (deps_eqb d (currentDeps w))
  end.

(** One run: the cleanup of the previous run, if any, then the body. *)
Definition runEffect (w : World) : World :=
  let connectionStatus := storeStatus w in
  let deps := currentDeps w in
  let w := match effectDeps w with
           | Some _ => effectCleanup w
           | None => w
           end in
  onStatusChanged connectionStatus (setEffectDeps (Some deps) w).

(** Render until the effect has nothing more to do.  The body may change
    [hideCloudConnection], which is itself a dependency, so one status
    change can run the effect twice. *)
Fixpoint commit (fuel : nat) (w : World) : World :=
  match fuel with
  | O => w
  | S k => if depsChanged w then commit k (runEffect w) else w
  end.

Definition render (w : World) : World := commit 2 w.

(** Mounting at time [t] while the store holds [s]: the initial cells
    (lines 18-25), then the first run of the effect. *)
Definition initialWorld (t : Z) (s : WebSocketStatus) : World :=
  {| hideCloudConnection := true;
     delayedStatus := s;
     disconnectionTimerRef := None;
     firstDisconnectedTimeRef := None;
     cloudConnectionStatusAnim := 1;
     effectDeps := None;
     storeStatus := s;
     clock := t;
     timers := [];
     nextTimerId := 1%positive;
     refreshCalls := O;
     reveals := O |}.

Definition mount (t : Z) (s : WebSocketStatus) : World :=
  render (initialWorld t s).

(** Unmounting runs the last cleanup. *)
Definition unmount (w : World) : World := effectCleanup w.

(** ** Host: time and timers *)

Fixpoint earliest (l : list (TimerId * Z)) : option (TimerId * Z) :=
  match l with
  | [] => None
  | x :: r =>
      match earliest r with
      | None => Some x
      | Some y => if snd x <=? snd y then Some x else Some y
      end
  end.

(** The next timeout that is due by time [t], if any. *)
Definition dueTimer (t : Z) (w : World) : option (TimerId * Z) :=
  earliest (filter (fun x => snd x <=? t) (timers w)).

(** The host takes the timeout off its table, runs the callback at the
    deadline, and React renders the state changes. *)
Definition fireTimer (x : TimerId * Z) (w : World) : World :=
  render
    (timerCallback
       (clearTimeout (fst x) (setClock (Z.max (clock w) (snd x)) w))).

Fixpoint runTimers (fuel : nat) (t : Z) (w : World) : World :=
  match fuel with
  | O => w
  | S k =>
      match dueTimer t w with
      | Some x => runTimers k t (fireTimer x w)
      | None => w
      end
  end.

(** Let time pass until [t], firing what falls due on the way. *)
Definition advanceTo (t : Z) (w : World) : World :=
  let w' := runTimers (S (List.length (timers w))) t w in
  setClock (Z.max (clock w') t) w'.

(** The store reports [s] at time [t]; the component renders. *)
Definition statusChange (t : Z) (s : WebSocketStatus) (w : World) : World :=
  render (setStoreStatus s (advanceTo t w)).

(** A run: status reports in the order they are delivered. *)
Fixpoint feed (evs : list (Z * WebSocketStatus)) (w : World) : World :=
  match evs with
  | [] => w
  | (t, s) :: r => feed r (statusChange t s w)
  end.

(** ** Predicates used by the statements *)

(** The first departure from CONNECTED as the effect sees it: the recorded
    time, or now when none is recorded. *)
Definition departure (w : World) : Z :=
  match firstDisconnectedTimeRef w with
  | Some T => T
  | None => clock w
  end.

(** Every pending timeout is the one the ref holds. *)
Definition TimersOwned (w : World) : Prop :=
  forall x, In x (timers w) -> disconnectionTimerRef w = Some (fst x).

(** The banner is never shown with the CONNECTED visuals. *)
Definition RevealOK (w : World) : Prop :=
  hideCloudConnection w = false -> delayedStatus w <> CONNECTED.

(** Between two events the cells of a mounted component are in one of
    three phases: idle while connected; waiting, with the one timeout due
    [DISCONNECTION_DELAY] after the departure [T]; or showing status [s]. *)
Definition IsIdle (w : World) : Prop :=
  hideCloudConnection w = true /\
  delayedStatus w = CONNECTED /\
  firstDisconnectedTimeRef w = None /\
  disconnectionTimerRef w = None /\
  timers w = [].

Definition IsWaiting (T : Z) (w : World) : Prop :=
  hideCloudConnection w = true /\
  firstDisconnectedTimeRef w = Some T /\
  T <= clock w < T + DISCONNECTION_DELAY /\
  exists h, disconnectionTimerRef w = Some h /\
            timers w = [(h, T + DISCONNECTION_DELAY)].

Definition IsShown (s : WebSocketStatus) (T : Z) (w : World) : Prop :=
  hideCloudConnection w = false /\
  delayedStatus w = s /\
  firstDisconnectedTimeRef w = Some T /\
  T + DISCONNECTION_DELAY <= clock w /\
  disconnectionTimerRef w = None /\
  timers w = [].

(** The phase the cells are in after the effect ran for status [s]. *)
Inductive Cells (s : WebSocketStatus) (w : World) : Prop :=
  | C_idle : s = CONNECTED -> IsIdle w -> Cells s w
  | C_waiting (T : Z) : s <> CONNECTED -> IsWaiting T w -> Cells s w
  | C_shown (T : Z) : s <> CONNECTED -> IsShown s T w -> Cells s w.

(** What a run of the effect relies on: the pending timeouts are the ref's,
    a recorded departure is not in the future, and the banner is hidden
    while the delay has not passed. *)
Definition Runnable (w : World) : Prop :=
  TimersOwned w /\
  departure w <= clock w /\
  (clock w - departure w < DISCONNECTION_DELAY -> hideCloudConnection w = true).

(** The effect has run for the current dependencies, and the cells are in
    one of the phases. *)
Definition Inv (w : World) : Prop :=
  effectDeps w = Some (currentDeps w) /\ Cells (storeStatus w) w.

(** The states of a mounted component: mount, then status reports and the
    passing of time, in any order. *)
Inductive Reachable : World -> Prop :=
  | R_mount (t : Z) (s : WebSocketStatus) :
      Reachable (mount t s)
  | R_status (w : World) (t : Z) (s : WebSocketStatus) :
      Reachable w -> Reachable (statusChange t s w)
  | R_time (w : World) (t : Z) :
      Reachable w -> Reachable (advanceTo t w).

(** Status reports that are all non-connected, in time order, from [lo]
    on and strictly before [hi]. *)
Fixpoint burst (lo hi : Z) (evs : list (Z * WebSocketStatus)) : Prop :=
  match evs with
  | [] => True
  | (t, s) :: r => lo <= t < hi /\ s <> CONNECTED /\ burst t hi r
  end.

(** The status of the last report of a run, [s] if there is none. *)
Fixpoint lastStatus (s : WebSocketStatus) (evs : list (Z * WebSocketStatus))
  : WebSocketStatus :=
  match evs with
  | [] => s
  | (_, s') :: r => lastStatus s' r
  end.

(** How often one run of the effect calls [refreshApplets] (line 121). *)
Definition refreshesFor (s : WebSocketStatus) : nat :=
  match s with
  | CONNECTED | DISCONNECTED => 1%nat
  | _ => 0%nat
  end.

(** The status reports of the refresh scenario, delivered to a component
    mounted at time 0 with the store CONNECTED. *)
Definition scenarioRun : list (Z * WebSocketStatus) :=
  [(0, DISCONNECTED); (1000, ERROR); (1500, CONNECTED)].

(** ** The rendered output and further predicates *)


(** The four members of the enum, as opposed to any other run-time value. *)
Definition isEnumMember (s : WebSocketStatus) : bool :=
  match s with
  | OTHER _ => false
  | _ => true
  end.



(** Short outages: each leaves CONNECTED at [T] with some status and is
    back at [R], less than [DISCONNECTION_DELAY] later; they come in time
    order from [lo] on. *)
Fixpoint blips (lo : Z) (bs : list (Z * WebSocketStatus * Z)) : Prop :=
  match bs with
  | [] => True
  | (T, s, R) :: r =>
      lo <= T /\ T <= R < T + DISCONNECTION_DELAY /\ s <> CONNECTED /\
      blips R r
  end.

(** The status reports of a sequence of outages. *)
Fixpoint blipReports (bs : list (Z * WebSocketStatus * Z))
  : list (Z * WebSocketStatus) :=
  match bs with
  | [] => []
  | (T, s, R) :: r => (T, s) :: (R, CONNECTED) :: blipReports r
  end.

(** ** Basic facts *)

Lemma status_eqb_spec (a b : WebSocketStatus) :
  reflect (a = b) (status_eqb a b).
Proof.
  destruct a, b; cbn; try (constructor; congruence).
  destruct (String.eqb_spec tag tag0); constructor; congruence.
Qed.

Lemma status_eqb_neq (a b : WebSocketStatus) : a <> b -> status_eqb a b = false.
Proof. destruct (status_eqb_spec a b); congruence. Qed.

Lemma dropTimer_owned (h : TimerId) (l : list (TimerId * Z)) :
  (forall x, In x l -> Some h = Some (fst x)) -> dropTimer h l = [].
Proof.
  induction l as [|x l IH]; intros H; cbn; [reflexivity|].
  assert (E : Some h = Some (fst x)) by (apply H; now left).
  injection E as ->. rewrite Pos.eqb_refl. cbn.
  apply IH. intros y Hy. apply H. now right.
Qed.

Lemma cancelPendingTimer_owned (w : World) :
  TimersOwned w -> timers (cancelPendingTimer w) = [].
Proof.
  unfold TimersOwned, cancelPendingTimer. intros H.
  destruct (disconnectionTimerRef w) as [h|] eqn:E; cbn.
  - apply dropTimer_owned. exact H.
  - destruct (timers w) as [|x l]; [reflexivity|].
    specialize (H x (or_introl eq_refl)). discriminate.
Qed.

Lemma cancelPendingTimer_ref (w : World) :
  disconnectionTimerRef (cancelPendingTimer w) = None.
Proof.
  unfold cancelPendingTimer.
  destruct (disconnectionTimerRef w) eqn:E; [reflexivity | exact E].
Qed.

(** ** One run of the effect *)

(** Simplify the cells, leaving the arithmetic alone. *)
Ltac world_simpl :=
  cbn -[Z.add Z.sub Z.max Z.leb DISCONNECTION_DELAY] in *.

(** Decide the integer comparisons in the goal. *)
Ltac case_leb :=
  repeat match goal with
         | |- context [Z.leb ?a ?b] => destruct (Z.leb_spec a b)
         end.

Lemma onStatusChanged_connected (w : World) :
  onStatusChanged CONNECTED w =
  refreshApplets
    (setAnim 0
       (setHideCloudConnection true
          (setDelayedStatus CONNECTED
             (setFirstDisconnectedTime None (cancelPendingTimer w))))).
Proof. reflexivity. Qed.

(** A non-connected run that is past the delay reveals at once. *)
Lemma onStatusChanged_late (s : WebSocketStatus) (w : World) :
  s <> CONNECTED ->
  DISCONNECTION_DELAY <= clock w - departure w ->
  let w1 := cancelPendingTimer w in
  let w2 := setFirstDisconnectedTime (Some (departure w)) w1 in
  let w3 := setAnim 1 (setHideCloudConnection false (setDelayedStatus s w2)) in
  onStatusChanged s w =
  if status_eqb s DISCONNECTED then refreshApplets w3 else w3.
Proof.
  intros Hs Hlate. unfold onStatusChanged, departure in *.
  rewrite (status_eqb_neq _ _ Hs). cbn [orb].
  unfold cancelPendingTimer.
  destruct w as [hd ds tr fr an ed ss ck tm nx rc rv].
  destruct tr as [h|], fr as [T|]; world_simpl; case_leb; reflexivity || lia.
Qed.

(** A non-connected run within the delay only arms the timer. *)
Lemma onStatusChanged_early (s : WebSocketStatus) (w : World) :
  s <> CONNECTED ->
  clock w - departure w < DISCONNECTION_DELAY ->
  let w1 := cancelPendingTimer w in
  let w2 := setFirstDisconnectedTime (Some (departure w)) w1 in
  let hw := setTimeout (DISCONNECTION_DELAY - (clock w - departure w)) w2 in
  let w3 := setTimerRef (Some (fst hw)) (snd hw) in
  onStatusChanged s w =
  if status_eqb s DISCONNECTED then refreshApplets w3 else w3.
Proof.
  intros Hs Hearly. unfold onStatusChanged, departure in *.
  rewrite (status_eqb_neq _ _ Hs). cbn [orb].
  unfold cancelPendingTimer.
  destruct w as [hd ds tr fr an ed ss ck tm nx rc rv].
  destruct tr as [h|], fr as [T|]; world_simpl; case_leb; reflexivity || lia.
Qed.

Lemma cancelPendingTimer_frame (w : World) :
  let w' := cancelPendingTimer w in
  hideCloudConnection w' = hideCloudConnection w /\
  delayedStatus w' = delayedStatus w /\
  firstDisconnectedTimeRef w' = firstDisconnectedTimeRef w /\
  cloudConnectionStatusAnim w' = cloudConnectionStatusAnim w /\
  effectDeps w' = effectDeps w /\
  storeStatus w' = storeStatus w /\
  clock w' = clock w /\
  nextTimerId w' = nextTimerId w /\
  refreshCalls w' = refreshCalls w /\
  reveals w' = reveals w.
Proof.
  unfold cancelPendingTimer.
  destruct (disconnectionTimerRef w); cbn; repeat split; reflexivity.
Qed.

(** The cells after a run for CONNECTED. *)
Lemma onStatusChanged_connected_fields (w : World) :
  let w' := onStatusChanged CONNECTED w in
  hideCloudConnection w' = true /\
  delayedStatus w' = CONNECTED /\
  firstDisconnectedTimeRef w' = None /\
  disconnectionTimerRef w' = None /\
  timers w' = timers (cancelPendingTimer w) /\
  reveals w' = reveals w /\
  refreshCalls w' = S (refreshCalls w) /\
  effectDeps w' = effectDeps w /\
  storeStatus w' = storeStatus w /\
  clock w' = clock w.
Proof.
  cbn zeta. rewrite onStatusChanged_connected.
  pose proof (cancelPendingTimer_frame w)
    as (Eh & Ed & Ef & Ea & Ee & Es & Ec & En & Er & Ev).
  cbn. rewrite cancelPendingTimer_ref, Er, Ev, Ee, Es, Ec.
  rewrite Bool.andb_false_r. repeat split; reflexivity.
Qed.

(** The cells after a non-connected run within the delay. *)
Lemma onStatusChanged_early_fields (s : WebSocketStatus) (w : World) :
  s <> CONNECTED ->
  clock w - departure w < DISCONNECTION_DELAY ->
  let w' := onStatusChanged s w in
  delayedStatus w' = delayedStatus w /\
  hideCloudConnection w' = hideCloudConnection w /\
  cloudConnectionStatusAnim w' = cloudConnectionStatusAnim w /\
  reveals w' = reveals w /\
  firstDisconnectedTimeRef w' = Some (departure w) /\
  disconnectionTimerRef w' = Some (nextTimerId w) /\
  timers w' =
    (timers (cancelPendingTimer w) ++
     [(nextTimerId w,
       clock w + (DISCONNECTION_DELAY - (clock w - departure w)))])%list /\
  refreshCalls w' = (refreshCalls w + refreshesFor s)%nat /\
  storeStatus w' = storeStatus w /\
  clock w' = clock w /\
  effectDeps w' = effectDeps w.
Proof.
  intros Hs Hearly. cbn zeta.
  rewrite (onStatusChanged_early s w Hs Hearly).
  pose proof (cancelPendingTimer_frame w)
    as (Eh & Ed & Ef & Ea & Ee & Es & Ec & En & Er & Ev).
  unfold setTimeout.
  destruct s; cbn [status_eqb]; try congruence;
    cbn [fst snd setTimerRef refreshApplets refreshesFor
         hideCloudConnection delayedStatus disconnectionTimerRef
         firstDisconnectedTimeRef cloudConnectionStatusAnim storeStatus
         clock timers nextTimerId refreshCalls reveals effectDeps
         setFirstDisconnectedTime];
    rewrite ?Eh, ?Ed, ?Ea, ?Es, ?Ec, ?En, ?Er, ?Ev, ?Ee;
    rewrite Z.max_r by lia;
    repeat split; try reflexivity; lia.
Qed.

(** The cells after a non-connected run once the delay has passed. *)
Lemma onStatusChanged_late_fields (s : WebSocketStatus) (w : World) :
  s <> CONNECTED ->
  DISCONNECTION_DELAY <= clock w - departure w ->
  let w' := onStatusChanged s w in
  hideCloudConnection w' = false /\
  delayedStatus w' = s /\
  firstDisconnectedTimeRef w' = Some (departure w) /\
  disconnectionTimerRef w' = None /\
  timers w' = timers (cancelPendingTimer w) /\
  reveals w' =
    (if hideCloudConnection w then S (reveals w) else reveals w) /\
  refreshCalls w' = (refreshCalls w + refreshesFor s)%nat /\
  storeStatus w' = storeStatus w /\
  clock w' = clock w /\
  effectDeps w' = effectDeps w.
Proof.
  intros Hs Hlate. cbn zeta.
  rewrite (onStatusChanged_late s w Hs Hlate).
  pose proof (cancelPendingTimer_frame w)
    as (Eh & Ed & Ef & Ea & Ee & Es & Ec & En & Er & Ev).
  pose proof (cancelPendingTimer_ref w) as Et.
  destruct s; cbn [status_eqb]; try congruence;
    cbn [setAnim setHideCloudConnection setDelayedStatus refreshApplets
         refreshesFor hideCloudConnection delayedStatus disconnectionTimerRef
         firstDisconnectedTimeRef cloudConnectionStatusAnim storeStatus
         clock timers nextTimerId refreshCalls reveals effectDeps
         setFirstDisconnectedTime negb];
    rewrite ?Eh, ?Ed, ?Ea, ?Es, ?Ec, ?En, ?Er, ?Ev, ?Ee, ?Et, ?Bool.andb_true_r;
    repeat split; try reflexivity; lia.
Qed.

(** ** From one phase to the next *)

Lemma idle_runnable (w : World) : IsIdle w -> Runnable w.
Proof.
  intros (Hh & _ & Hf & _ & Ht). unfold Runnable, TimersOwned, departure.
  rewrite Hf, Ht. repeat split; [intros x [] | lia | auto].
Qed.

Lemma waiting_runnable (T : Z) (w : World) : IsWaiting T w -> Runnable w.
Proof.
  intros (Hh & Hf & Hc & h & Hr & Ht). unfold Runnable, TimersOwned, departure.
  rewrite Hf, Ht, Hr. repeat split; [|lia|auto].
  intros x [<-|[]]. reflexivity.
Qed.

Lemma shown_runnable (s : WebSocketStatus) (T : Z) (w : World) :
  IsShown s T w -> Runnable w.
Proof.
  intros (Hh & _ & Hf & Hc & _ & Ht). unfold Runnable, TimersOwned, departure.
  rewrite Hf, Ht. repeat split; [intros x [] | unfold DISCONNECTION_DELAY in *; lia | lia].
Qed.

Lemma cells_runnable (s : WebSocketStatus) (w : World) : Cells s w -> Runnable w.
Proof.
  intros [_ H | T _ H | T _ H];
    eauto using idle_runnable, waiting_runnable, shown_runnable.
Qed.

Lemma effect_to_idle (w : World) :
  TimersOwned w -> IsIdle (onStatusChanged CONNECTED w).
Proof.
  intros Ho.
  pose proof (onStatusChanged_connected_fields w)
    as (Eh & Ed & Ef & Er & Et & _).
  cbn zeta in *. unfold IsIdle.
  rewrite Et, (cancelPendingTimer_owned w Ho). auto.
Qed.

Lemma effect_to_waiting (s : WebSocketStatus) (w : World) :
  s <> CONNECTED -> Runnable w ->
  clock w - departure w < DISCONNECTION_DELAY ->
  IsWaiting (departure w) (onStatusChanged s w).
Proof.
  intros Hs (Ho & Hd & Hh) He.
  pose proof (onStatusChanged_early_fields s w Hs He)
    as (_ & Eh & _ & _ & Ef & Er & Et & _ & _ & Ec & _).
  cbn zeta in *. unfold IsWaiting.
  rewrite Eh, Ef, Er, Et, Ec, (cancelPendingTimer_owned w Ho).
  split; [auto|]. split; [reflexivity|]. split; [lia|].
  exists (nextTimerId w). split; [reflexivity|]. cbn [app].
  do 2 f_equal. lia.
Qed.

Lemma effect_to_shown (s : WebSocketStatus) (w : World) :
  s <> CONNECTED -> TimersOwned w ->
  DISCONNECTION_DELAY <= clock w - departure w ->
  IsShown s (departure w) (onStatusChanged s w).
Proof.
  intros Hs Ho Hl.
  pose proof (onStatusChanged_late_fields s w Hs Hl)
    as (Eh & Ed & Ef & Er & Et & _ & _ & _ & Ec & _).
  cbn zeta in *. unfold IsShown.
  rewrite Eh, Ed, Ef, Er, Et, Ec, (cancelPendingTimer_owned w Ho).
  repeat split; auto; lia.
Qed.

(** A run of the effect for [s] always ends in a phase for [s]. *)
Lemma effect_cells (s : WebSocketStatus) (w : World) :
  Runnable w -> Cells s (onStatusChanged s w).
Proof.
  intros R. destruct (status_eqb_spec s CONNECTED) as [->|Hs].
  - apply C_idle; [reflexivity|]. apply effect_to_idle, R.
  - destruct (Z.le_gt_cases DISCONNECTION_DELAY (clock w - departure w)) as [L|L].
    + apply (C_shown _ _ (departure w)); [exact Hs|].
      apply effect_to_shown; [exact Hs | apply R | exact L].
    + apply (C_waiting _ _ (departure w)); [exact Hs|].
      apply effect_to_waiting; [exact Hs | exact R | lia].
Qed.

(** The effect never touches the store, the clock or React's record of
    the dependencies. *)
Lemma onStatusChanged_frame (s : WebSocketStatus) (w : World) :
  let w' := onStatusChanged s w in
  storeStatus w' = storeStatus w /\
  clock w' = clock w /\
  effectDeps w' = effectDeps w.
Proof.
  cbn zeta. destruct (status_eqb_spec s CONNECTED) as [->|Hs].
  - pose proof (onStatusChanged_connected_fields w) as H. cbn zeta in H. tauto.
  - destruct (Z.le_gt_cases DISCONNECTION_DELAY (clock w - departure w)) as [L|L].
    + pose proof (onStatusChanged_late_fields s w Hs L) as H. cbn zeta in H. tauto.
    + assert (L' : clock w - departure w < DISCONNECTION_DELAY) by lia.
      pose proof (onStatusChanged_early_fields s w Hs L') as H.
      cbn zeta in H. tauto.
Qed.

(** In a phase for [s], running the effect for [s] again leaves the banner
    as it is. *)
Lemma effect_again_hide (s : WebSocketStatus) (w : World) :
  Cells s w ->
  hideCloudConnection (onStatusChanged s w) = hideCloudConnection w /\
  reveals (onStatusChanged s w) = reveals w.
Proof.
  intros [-> (Hh & _) | T Hs (Hh & Hf & Hc & _) | T Hs (Hh & _ & Hf & Hc & _)].
  - pose proof (onStatusChanged_connected_fields w) as (Eh & _ & _ & _ & _ & Ev & _).
    cbn zeta in *. rewrite Eh, Ev, Hh. auto.
  - assert (L : clock w - departure w < DISCONNECTION_DELAY)
      by (unfold departure; rewrite Hf; lia).
    pose proof (onStatusChanged_early_fields s w Hs L) as (_ & Eh & _ & Ev & _).
    cbn zeta in *. auto.
  - assert (L : DISCONNECTION_DELAY <= clock w - departure w)
      by (unfold departure; rewrite Hf; lia).
    pose proof (onStatusChanged_late_fields s w Hs L)
      as (Eh & _ & _ & _ & _ & Ev & _).
    cbn zeta in *. rewrite Eh, Ev, Hh. auto.
Qed.

(** ** Runs of the effect under React *)

Lemma deps_eqb_spec (a b : WebSocketStatus * bool) :
  reflect (a = b) (deps_eqb a b).
Proof.
  destruct a as [s h], b as [s' h']. unfold deps_eqb. cbn [fst snd].
  destruct (status_eqb_spec s s') as [->|N]; cbn [andb].
  - destruct (Bool.eqb_spec h h') as [->|N]; constructor; congruence.
  - constructor. congruence.
Qed.

Lemma depsChanged_false (w : World) :
  depsChanged w = false <-> effectDeps w = Some (currentDeps w).
Proof.
  unfold depsChanged. destruct (effectDeps w) as [d|].
  - destruct (deps_eqb_spec d (currentDeps w)) as [->|N]; cbn;
      split; congruence.
  - split; discriminate.
Qed.

Lemma cancelPendingTimer_idem (w : World) :
  cancelPendingTimer (cancelPendingTimer w) = cancelPendingTimer w.
Proof.
  unfold cancelPendingTimer at 1. now rewrite cancelPendingTimer_ref.
Qed.

Lemma onStatusChanged_after_cancel (s : WebSocketStatus) (w : World) :
  onStatusChanged s (cancelPendingTimer w) = onStatusChanged s w.
Proof. unfold onStatusChanged. now rewrite cancelPendingTimer_idem. Qed.

Lemma cancelPendingTimer_setEffectDeps d (w : World) :
  cancelPendingTimer (setEffectDeps d w) = setEffectDeps d (cancelPendingTimer w).
Proof.
  unfold cancelPendingTimer. cbn.
  destruct (disconnectionTimerRef w); reflexivity.
Qed.

(** The cleanup before a run only repeats what the body starts with. *)
Lemma runEffect_body (w : World) :
  runEffect w =
  onStatusChanged (storeStatus w) (setEffectDeps (Some (currentDeps w)) w).
Proof.
  unfold runEffect, effectCleanup. destruct (effectDeps w); [|reflexivity].
  now rewrite <- cancelPendingTimer_setEffectDeps, onStatusChanged_after_cancel.
Qed.

Lemma setEffectDeps_runnable d (w : World) :
  Runnable w -> Runnable (setEffectDeps d w).
Proof. intros H. exact H. Qed.

Lemma setEffectDeps_cells d (s : WebSocketStatus) (w : World) :
  Cells s w -> Cells s (setEffectDeps d w).
Proof.
  intros [E H | T N H | T N H];
    [apply C_idle | apply (C_waiting _ _ T) | apply (C_shown _ _ T)];
    assumption.
Qed.

Lemma runEffect_frame (w : World) :
  let w' := runEffect w in
  storeStatus w' = storeStatus w /\
  clock w' = clock w /\
  effectDeps w' = Some (currentDeps w).
Proof.
  cbn zeta. rewrite runEffect_body.
  pose proof (onStatusChanged_frame (storeStatus w)
                (setEffectDeps (Some (currentDeps w)) w)) as (Es & Ec & Ed).
  rewrite Es, Ec, Ed. repeat split; reflexivity.
Qed.

Lemma runEffect_cells (w : World) :
  Runnable w -> Cells (storeStatus w) (runEffect w).
Proof.
  intros R. rewrite runEffect_body.
  apply effect_cells, setEffectDeps_runnable, R.
Qed.

Lemma runEffect_again (w : World) :
  Cells (storeStatus w) w ->
  hideCloudConnection (runEffect w) = hideCloudConnection w /\
  reveals (runEffect w) = reveals w.
Proof.
  intros C. rewrite runEffect_body.
  apply (effect_again_hide (storeStatus w)
           (setEffectDeps (Some (currentDeps w)) w)).
  apply setEffectDeps_cells, C.
Qed.

Lemma render_idle (w : World) : depsChanged w = false -> render w = w.
Proof. intros H. unfold render, commit. now rewrite H. Qed.

(** One run settles the effect when it leaves the banner as it is. *)
Lemma render_once (w : World) :
  depsChanged w = true ->
  hideCloudConnection (runEffect w) = hideCloudConnection w ->
  render w = runEffect w.
Proof.
  intros H Hh. unfold render, commit. rewrite H.
  pose proof (runEffect_frame w) as (Es & _ & Ed). cbn zeta in *.
  assert (S : depsChanged (runEffect w) = false).
  { apply depsChanged_false. rewrite Ed. unfold currentDeps.
    now rewrite Es, Hh. }
  now rewrite S.
Qed.

(** Otherwise the change of [hideCloudConnection] runs it a second time. *)
Lemma render_twice (w : World) :
  depsChanged w = true ->
  hideCloudConnection (runEffect w) <> hideCloudConnection w ->
  render w = runEffect (runEffect w).
Proof.
  intros H Hh. unfold render, commit. rewrite H.
  pose proof (runEffect_frame w) as (Es & _ & Ed). cbn zeta in *.
  assert (S : depsChanged (runEffect w) = true).
  { destruct (depsChanged (runEffect w)) eqn:E; [reflexivity|].
    apply depsChanged_false in E. rewrite Ed in E. unfold currentDeps in E.
    congruence. }
  now rewrite S.
Qed.

(** Two runs are always enough: after [render] the effect is settled, and
    the cells are in a phase for the store's status. *)
Lemma render_Inv (w : World) :
  Runnable w ->
  (depsChanged w = false -> Cells (storeStatus w) w) ->
  Inv (render w) /\
  storeStatus (render w) = storeStatus w /\
  clock (render w) = clock w.
Proof.
  intros R Hc. destruct (depsChanged w) eqn:D.
  - pose proof (runEffect_frame w) as (Es & Ec & Ed). cbn zeta in *.
    pose proof (runEffect_cells w R) as C1.
    destruct (Bool.bool_dec (hideCloudConnection (runEffect w))
                (hideCloudConnection w)) as [Hh|Hh].
    + rewrite (render_once w D Hh). unfold Inv, currentDeps.
      rewrite Ed, Es, Hh. repeat split; auto.
    + rewrite (render_twice w D Hh).
      pose proof (runEffect_frame (runEffect w)) as (Es2 & Ec2 & Ed2).
      cbn zeta in *. rewrite <- Es in C1.
      pose proof (runEffect_again _ C1) as (Hh2 & _).
      pose proof (runEffect_cells _ (cells_runnable _ _ C1)) as C2.
      unfold Inv, currentDeps in *.
      rewrite <- Es2 in C2.
      rewrite Ed2, Hh2. repeat split; auto; congruence.
  - rewrite (render_idle w D). unfold Inv.
    apply depsChanged_false in D as D'. auto.
Qed.

(** ** Time *)

#[local] Arguments DISCONNECTION_DELAY : simpl never.
#[local] Arguments Z.max : simpl never.
#[local] Arguments Z.add : simpl never.
#[local] Arguments Z.sub : simpl never.
#[local] Arguments Z.leb : simpl never.

Lemma waiting_not_connected (T : Z) (w : World) :
  Inv w -> IsWaiting T w -> storeStatus w <> CONNECTED.
Proof.
  intros [_ [E (Hh & _ & Hf & _) | T' N _ | T' N (Hh & _)]] (Hh' & Hf' & _);
    congruence.
Qed.

Lemma dueTimer_none (t : Z) (w : World) :
  timers w = [] -> dueTimer t w = None.
Proof. unfold dueTimer. now intros ->. Qed.

Lemma dueTimer_waiting (T t : Z) (w : World) :
  IsWaiting T w ->
  dueTimer t w =
  if T + DISCONNECTION_DELAY <=? t
  then option_map (fun h => (h, T + DISCONNECTION_DELAY)) (disconnectionTimerRef w)
  else None.
Proof.
  intros (_ & _ & _ & h & Hr & Ht). unfold dueTimer. rewrite Ht, Hr.
  cbn. destruct (T + DISCONNECTION_DELAY <=? t); reflexivity.
Qed.

(** Nothing falls due: only the clock moves. *)
Lemma advanceTo_quiet (t : Z) (w : World) :
  dueTimer t w = None -> advanceTo t w = setClock (Z.max (clock w) t) w.
Proof.
  intros H. unfold advanceTo. cbn [runTimers]. now rewrite H.
Qed.

Lemma setClock_idle (t : Z) (w : World) : IsIdle w -> IsIdle (setClock t w).
Proof. intros H. exact H. Qed.

Lemma setClock_waiting (T t : Z) (w : World) :
  IsWaiting T w -> T <= t < T + DISCONNECTION_DELAY ->
  IsWaiting T (setClock t w).
Proof.
  intros (Hh & Hf & _ & Hx) Ht. unfold IsWaiting. cbn. auto.
Qed.

Lemma setClock_shown (s : WebSocketStatus) (T t : Z) (w : World) :
  IsShown s T w -> T + DISCONNECTION_DELAY <= t -> IsShown s T (setClock t w).
Proof.
  intros (Hh & Hd & Hf & _ & Hx) Ht. unfold IsShown. cbn. auto.
Qed.

(** Letting time pass keeps the invariant. *)
Lemma setClock_Inv (t : Z) (w : World) :
  Inv w -> clock w <= t ->
  (forall T, IsWaiting T w -> t < T + DISCONNECTION_DELAY) ->
  Inv (setClock t w).
Proof.
  intros [Hd C] Ht Hw. split; [exact Hd|].
  change (storeStatus (setClock t w)) with (storeStatus w).
  destruct C as [E H | T N H | T N H].
  - apply C_idle; [exact E|]. apply setClock_idle, H.
  - apply (C_waiting _ _ T); [exact N|]. apply setClock_waiting; [exact H|].
    specialize (Hw T H). destruct H as (_ & _ & Hc & _). lia.
  - apply (C_shown _ _ T); [exact N|]. apply setClock_shown; [exact H|].
    destruct H as (_ & _ & _ & Hc & _). lia.
Qed.

(** The timeout of a waiting component fires: the banner shows the
    store's status, and the effect, run again for the change of
    [hideCloudConnection], confirms it. *)
Lemma fireTimer_waiting (T : Z) (h : TimerId) (w : World) :
  Inv w -> IsWaiting T w -> disconnectionTimerRef w = Some h ->
  let w' := fireTimer (h, T + DISCONNECTION_DELAY) w in
  Inv w' /\
  IsShown (storeStatus w) T w' /\
  storeStatus w' = storeStatus w /\
  clock w' = T + DISCONNECTION_DELAY /\
  reveals w' = S (reveals w).
Proof.
  intros I W Hr. pose proof (waiting_not_connected T w I W) as N.
  destruct I as [Hd _].
  destruct W as (Hh & Hf & Hc & h' & Hr' & Ht).
  assert (h' = h) by congruence. subst h'.
  cbn zeta. unfold fireTimer. cbn [fst snd].
  rewrite Z.max_r by lia.
  set (w3 := timerCallback _).
  assert (F : hideCloudConnection w3 = false /\
              delayedStatus w3 = storeStatus w /\
              firstDisconnectedTimeRef w3 = Some T /\
              disconnectionTimerRef w3 = Some h /\
              timers w3 = [] /\
              storeStatus w3 = storeStatus w /\
              clock w3 = T + DISCONNECTION_DELAY /\
              effectDeps w3 = Some (storeStatus w, true) /\
              reveals w3 = S (reveals w)).
  { subst w3. unfold timerCallback, clearTimeout.
    cbn. rewrite (status_eqb_neq _ _ N).
    cbn. unfold currentDeps in Hd. rewrite Hh in *.
    rewrite Ht. cbn. rewrite Pos.eqb_refl. cbn. auto 10. }
  destruct F as (Fh & Fd & Ff & Fr & Ft & Fs & Fc & Fe & Fv).
  assert (D : depsChanged w3 = true).
  { unfold depsChanged, currentDeps. rewrite Fe, Fs, Fh.
    unfold deps_eqb. cbn. now rewrite Bool.andb_false_r. }
  assert (L : DISCONNECTION_DELAY <=
              clock (setEffectDeps (Some (currentDeps w3)) w3) -
              departure (setEffectDeps (Some (currentDeps w3)) w3)).
  { unfold departure. cbn. rewrite Ff, Fc. lia. }
  assert (O : TimersOwned (setEffectDeps (Some (currentDeps w3)) w3)).
  { unfold TimersOwned. cbn. rewrite Ft. intros x []. }
  assert (N3 : storeStatus w3 <> CONNECTED) by congruence.
  pose proof (effect_to_shown _ _ N3 O L) as S3.
  pose proof (onStatusChanged_late_fields _ _ N3 L)
    as (Eh & _ & _ & _ & _ & Ev & _ & Es & Ec & Ed).
  cbn zeta in *. rewrite <- runEffect_body in *.
  assert (R : render w3 = runEffect w3)
    by (apply render_once; [exact D | cbn in Eh; congruence]).
  rewrite R. cbn in Ev, Es, Ec, Ed, S3.
  unfold departure in S3. cbn in S3. rewrite Ff, Fs in S3.
  rewrite Fh in Ev.
  split; [split|].
  - unfold currentDeps in *. now rewrite Ed, Es, Eh, Fh.
  - apply (C_shown _ _ T); [congruence|]. now rewrite Es, Fs.
  - split; [exact S3|]. repeat split; congruence.
Qed.

Lemma advanceTo_waiting_early (T t : Z) (w : World) :
  IsWaiting T w -> t < T + DISCONNECTION_DELAY ->
  advanceTo t w = setClock (Z.max (clock w) t) w.
Proof.
  intros W Ht. apply advanceTo_quiet.
  rewrite (dueTimer_waiting T t w W).
  destruct (Z.leb_spec (T + DISCONNECTION_DELAY) t); [lia | reflexivity].
Qed.

(** Time passes beyond the deadline of a waiting component: its timeout
    fires on the way, once. *)
Lemma advanceTo_waiting_late (T t : Z) (w : World) :
  Inv w -> IsWaiting T w -> T + DISCONNECTION_DELAY <= t ->
  let w' := advanceTo t w in
  Inv w' /\
  IsShown (storeStatus w) T w' /\
  storeStatus w' = storeStatus w /\
  clock w' = t /\
  reveals w' = S (reveals w).
Proof.
  intros I W Ht.
  pose proof (dueTimer_waiting T t w W) as D.
  destruct (Z.leb_spec (T + DISCONNECTION_DELAY) t) as [_|]; [|lia].
  pose proof W as (_ & _ & _ & h & Hr & Htm).
  rewrite Hr in D. cbn [option_map] in D.
  pose proof (fireTimer_waiting T h w I W Hr) as (I' & S' & Es & Ec & Ev).
  cbn zeta in *.
  unfold advanceTo. rewrite Htm. cbn [List.length runTimers]. rewrite D.
  rewrite (dueTimer_none t _ (proj2 (proj2 (proj2 (proj2 (proj2 S')))))).
  rewrite Ec, Z.max_r by lia.
  split; [|split; [|cbn; auto]].
  - apply setClock_Inv; [exact I' | lia |].
    intros T' (Hh' & _). destruct S' as (Hh & _). congruence.
  - apply setClock_shown; [exact S' | exact Ht].
Qed.

Lemma advanceTo_no_timers (t : Z) (w : World) :
  timers w = [] -> advanceTo t w = setClock (Z.max (clock w) t) w.
Proof. intros H. apply advanceTo_quiet, dueTimer_none, H. Qed.

(** The passing of time keeps the invariant, and the clock never runs
    backwards. *)
Lemma advanceTo_Inv (t : Z) (w : World) :
  Inv w ->
  Inv (advanceTo t w) /\
  storeStatus (advanceTo t w) = storeStatus w /\
  clock (advanceTo t w) = Z.max (clock w) t.
Proof.
  intros I. pose proof I as [_ [E H | T N H | T N H]].
  - rewrite advanceTo_no_timers by apply H.
    split; [|split; reflexivity].
    apply setClock_Inv; [exact I | lia |].
    intros T (_ & Hf & _). destruct H as (_ & _ & Hf' & _). congruence.
  - destruct (Z.lt_ge_cases t (T + DISCONNECTION_DELAY)) as [L|L].
    + rewrite (advanceTo_waiting_early T t w H L).
      split; [|split; reflexivity].
      apply setClock_Inv; [exact I | lia |].
      intros T' (_ & Hf & _). destruct H as (_ & Hf' & Hc & _).
      assert (T' = T) by congruence. subst T'. lia.
    + pose proof (advanceTo_waiting_late T t w I H L) as (I' & _ & Es & Ec & _).
      cbn zeta in *. destruct H as (_ & _ & Hc & _).
      rewrite Ec, Z.max_r by lia. auto.
  - rewrite advanceTo_no_timers by apply H.
    split; [|split; reflexivity].
    apply setClock_Inv; [exact I | lia |].
    intros T' (Hh' & _). destruct H as (Hh & _). congruence.
Qed.

(** ** Status reports *)

Lemma setStoreStatus_runnable (s : WebSocketStatus) (w : World) :
  Runnable w -> Runnable (setStoreStatus s w).
Proof. intros H. exact H. Qed.

Lemma setStoreStatus_cells (s s' : WebSocketStatus) (w : World) :
  Cells s w -> Cells s (setStoreStatus s' w).
Proof.
  intros [E H | T N H | T N H];
    [apply C_idle | apply (C_waiting _ _ T) | apply (C_shown _ _ T)];
    assumption.
Qed.

(** The store reports a status to a component that satisfies the
    invariant: the component settles in a phase for that status. *)
Lemma render_status_Inv (s : WebSocketStatus) (w : World) :
  Inv w ->
  let w' := render (setStoreStatus s w) in
  Inv w' /\ storeStatus w' = s /\ clock w' = clock w.
Proof.
  intros [Hd C]. cbn zeta.
  apply (render_Inv (setStoreStatus s w)).
  - apply setStoreStatus_runnable, (cells_runnable _ _ C).
  - intros D. apply depsChanged_false in D. cbn in D.
    unfold currentDeps in *. rewrite Hd in D. injection D as D.
    cbn [storeStatus setStoreStatus]. rewrite <- D.
    apply setStoreStatus_cells, C.
Qed.

Lemma statusChange_Inv (t : Z) (s : WebSocketStatus) (w : World) :
  Inv w ->
  let w' := statusChange t s w in
  Inv w' /\ storeStatus w' = s /\ clock w' = Z.max (clock w) t.
Proof.
  intros I. cbn zeta. unfold statusChange.
  pose proof (advanceTo_Inv t w I) as (I1 & _ & Ec).
  pose proof (render_status_Inv s _ I1) as (I2 & Es & Ec2).
  cbn zeta in *. rewrite Ec2, Ec. auto.
Qed.

Lemma mount_Inv (t : Z) (s : WebSocketStatus) : Inv (mount t s).
Proof.
  unfold mount. apply render_Inv.
  - unfold Runnable, TimersOwned, departure, initialWorld. cbn.
    repeat split; [intros x [] | lia].
  - discriminate.
Qed.

(** Every state of a mounted component satisfies the invariant. *)
Lemma reachable_Inv (w : World) : Reachable w -> Inv w.
Proof.
  induction 1 as [t s | w t s _ IH | w t _ IH].
  - apply mount_Inv.
  - apply (statusChange_Inv t s w IH).
  - apply (advanceTo_Inv t w IH).
Qed.

Lemma inv_connected_idle (w : World) :
  Inv w -> storeStatus w = CONNECTED -> IsIdle w.
Proof. intros [_ [E H | T N H | T N H]] E'; [exact H | | ]; contradiction. Qed.

(** A non-connected status, reported to a component whose banner is hidden
    and whose delay has not passed, (re)arms the timeout for the original
    deadline and shows nothing. *)
Lemma render_arms (s : WebSocketStatus) (w : World) :
  Inv w -> s <> CONNECTED ->
  hideCloudConnection w = true ->
  clock w - departure w < DISCONNECTION_DELAY ->
  let w' := render (setStoreStatus s w) in
  IsWaiting (departure w) w' /\ reveals w' = reveals w.
Proof.
  intros I Hs Hh He. cbn zeta.
  set (w1 := setStoreStatus s w).
  destruct (depsChanged w1) eqn:D.
  - pose proof I as [_ C].
    pose proof (runEffect_body w1) as B.
    set (w2 := setEffectDeps (Some (currentDeps w1)) w1) in *.
    change (storeStatus w1) with s in B.
    assert (R2 : Runnable w2) by apply (cells_runnable _ _ C).
    assert (He2 : clock w2 - departure w2 < DISCONNECTION_DELAY) by exact He.
    pose proof (effect_to_waiting s w2 Hs R2 He2) as W.
    pose proof (onStatusChanged_early_fields s w2 Hs He2)
      as (_ & Eh & _ & Ev & _).
    cbn zeta in *. rewrite <- B in *.
    rewrite (render_once w1 D Eh). auto.
  - rewrite (render_idle w1 D).
    apply depsChanged_false in D. destruct I as [Hd C].
    cbn in D. unfold currentDeps in *. rewrite Hd in D. injection D as D.
    split; [|reflexivity].
    destruct C as [E H | T N H | T N (Hh' & _)]; [congruence | | congruence].
    pose proof H as (_ & Hf & _). unfold departure. rewrite Hf. exact H.
Qed.

Lemma statusChange_idle (t : Z) (s : WebSocketStatus) (w : World) :
  Inv w -> IsIdle w -> s <> CONNECTED ->
  let w' := statusChange t s w in
  Inv w' /\ IsWaiting (Z.max (clock w) t) w' /\
  storeStatus w' = s /\ reveals w' = reveals w /\
  clock w' = Z.max (clock w) t.
Proof.
  intros I H Hs. cbn zeta.
  pose proof (statusChange_Inv t s w I) as (I' & Es & Ec). cbn zeta in *.
  unfold statusChange in *. rewrite advanceTo_no_timers in * by apply H.
  pose proof H as (Hh & _ & Hf & _).
  assert (I1 : Inv (setClock (Z.max (clock w) t) w)).
  { apply setClock_Inv; [exact I | lia |].
    intros T (_ & Hf' & _). congruence. }
  pose proof (render_arms s _ I1 Hs) as A. cbn zeta in A.
  unfold departure in A. cbn in A. rewrite Hf in A.
  destruct A as (A1 & A2); [exact Hh | unfold DISCONNECTION_DELAY; lia |].
  auto.
Qed.

Lemma statusChange_waiting (T t : Z) (s : WebSocketStatus) (w : World) :
  Inv w -> IsWaiting T w -> s <> CONNECTED ->
  t < T + DISCONNECTION_DELAY ->
  let w' := statusChange t s w in
  Inv w' /\ IsWaiting T w' /\
  storeStatus w' = s /\ reveals w' = reveals w /\
  clock w' = Z.max (clock w) t.
Proof.
  intros I W Hs Ht. cbn zeta.
  pose proof (statusChange_Inv t s w I) as (I' & Es & Ec). cbn zeta in *.
  unfold statusChange in *. rewrite (advanceTo_waiting_early T t w W Ht) in *.
  pose proof W as (Hh & Hf & Hc & _).
  assert (I1 : Inv (setClock (Z.max (clock w) t) w)).
  { apply setClock_Inv; [exact I | lia |].
    intros T' (_ & Hf' & _). assert (T' = T) by congruence. subst T'. lia. }
  pose proof (render_arms s _ I1 Hs) as A. cbn zeta in A.
  unfold departure in A. cbn in A. rewrite Hf in A.
  destruct A as (A1 & A2); [exact Hh | lia |]. auto.
Qed.

(** CONNECTED, reported at any moment, leaves the component idle. *)
Lemma statusChange_connected (t : Z) (w : World) :
  Inv w ->
  let w' := statusChange t CONNECTED w in
  Inv w' /\ IsIdle w' /\ storeStatus w' = CONNECTED.
Proof.
  intros I. pose proof (statusChange_Inv t CONNECTED w I) as (I' & Es & _).
  cbn zeta in *. split; [exact I'|]. split; [|exact Es].
  apply inv_connected_idle; assumption.
Qed.

(** An idle component stays hidden until the next status report. *)
Lemma advanceTo_idle (t : Z) (w : World) :
  IsIdle w ->
  hideCloudConnection (advanceTo t w) = true /\
  timers (advanceTo t w) = [] /\
  reveals (advanceTo t w) = reveals w.
Proof.
  intros H. rewrite advanceTo_no_timers by apply H. cbn.
  destruct H as (Hh & _ & _ & _ & Ht). auto.
Qed.

(** What a waiting component shows as time passes: nothing before the
    deadline, the store's status from the deadline on, with exactly one
    reveal. *)
Lemma waiting_timeline (T : Z) (w : World) :
  Inv w -> IsWaiting T w ->
  (forall t, t < T + DISCONNECTION_DELAY ->
     hideCloudConnection (advanceTo t w) = true /\
     reveals (advanceTo t w) = reveals w) /\
  (forall t, T + DISCONNECTION_DELAY <= t ->
     hideCloudConnection (advanceTo t w) = false /\
     delayedStatus (advanceTo t w) = storeStatus w /\
     reveals (advanceTo t w) = S (reveals w) /\
     timers (advanceTo t w) = []).
Proof.
  intros I W. split; intros t Ht.
  - rewrite (advanceTo_waiting_early T t w W Ht). cbn.
    destruct W as (Hh & _). auto.
  - pose proof (advanceTo_waiting_late T t w I W Ht)
      as (_ & (Hh & Hd & _ & _ & _ & Htm) & _ & _ & Ev).
    cbn zeta in *. auto.
Qed.

(** A burst of non-connected reports before the deadline keeps the
    component waiting for the same deadline. *)
Lemma feed_waiting (T : Z) (evs : list (Z * WebSocketStatus)) :
  forall (lo : Z) (w : World),
    Inv w -> IsWaiting T w -> burst lo (T + DISCONNECTION_DELAY) evs ->
    let w' := feed evs w in
    Inv w' /\ IsWaiting T w' /\
    storeStatus w' = lastStatus (storeStatus w) evs /\
    reveals w' = reveals w.
Proof.
  induction evs as [|[t s] r IH]; intros lo w I W B; cbn zeta.
  - cbn. auto.
  - cbn [burst] in B. destruct B as (Ht & Hs & B).
    pose proof (statusChange_waiting T t s w I W Hs (proj2 Ht))
      as (I' & W' & Es & Ev & _).
    cbn zeta in *. cbn [feed lastStatus].
    pose proof (IH t _ I' W' B) as (I2 & W2 & Es2 & Ev2).
    cbn zeta in *. rewrite Es in Es2. rewrite Ev in Ev2. auto.
Qed.

Lemma cells_timers (s : WebSocketStatus) (w : World) :
  Cells s w -> (List.length (timers w) <= 1)%nat /\ TimersOwned w.
Proof.
  intros C. split; [|apply (cells_runnable _ _ C)].
  destruct C as [_ (_ & _ & _ & _ & ->) | T _ (_ & _ & _ & h & _ & ->)
                | T _ (_ & _ & _ & _ & _ & ->)]; cbn; lia.
Qed.

Lemma onStatusChanged_refresh (s : WebSocketStatus) (w : World) :
  refreshCalls (onStatusChanged s w) = (refreshCalls w + refreshesFor s)%nat.
Proof.
  destruct (status_eqb_spec s CONNECTED) as [->|Hs].
  - pose proof (onStatusChanged_connected_fields w) as H. cbn zeta in H.
    destruct H as (_ & _ & _ & _ & _ & _ & -> & _). cbn. lia.
  - destruct (Z.le_gt_cases DISCONNECTION_DELAY (clock w - departure w)) as [L|L].
    + pose proof (onStatusChanged_late_fields s w Hs L) as H. cbn zeta in H.
      tauto.
    + assert (L' : clock w - departure w < DISCONNECTION_DELAY) by lia.
      pose proof (onStatusChanged_early_fields s w Hs L') as H.
      cbn zeta in H. tauto.
Qed.

(** In the states of a mounted component the first-disconnection time is
    unset exactly while the store is CONNECTED, and a displayed banner
    never shows CONNECTED. *)
Lemma inv_first_none_iff (w : World) :
  Inv w -> (firstDisconnectedTimeRef w = None <-> storeStatus w = CONNECTED).
Proof.
  intros [_ [E (_ & _ & Hf & _) | T N (_ & Hf & _) | T N (_ & _ & Hf & _)]];
    rewrite Hf; split; congruence.
Qed.

Lemma inv_revealOK (w : World) : Inv w -> RevealOK w.
Proof.
  intros [_ [E (Hh & _) | T N (Hh & _) | T N (_ & Hd & _)]] H;
    congruence.
Qed.

(** A report that changes [hideCloudConnection] runs the effect twice:
    CONNECTED, reported while the banner is displayed, hides it in the
    first run and calls [refreshApplets] in both. *)
Lemma connected_while_displayed_runs_twice :
  let w := advanceTo 5000 (statusChange 0 DISCONNECTED (mount 0 CONNECTED)) in
  shouldDisplay w = true /\
  refreshCalls (statusChange 6000 CONNECTED w) = (refreshCalls w + 2)%nat.
Proof. vm_compute. auto. Qed.

(** ** The claims *)

(** C1.  A mounted component whose store is CONNECTED is told DISCONNECTED
    at time [T] and nothing afterwards: the banner is not displayed at any
    time before [T + 5000], and at every time from [T + 5000] on it is
    displayed with [delayedStatus] DISCONNECTED; in particular it is hidden
    at [T + 4999] and displayed at [T + 5000]. *)
Theorem disconnect_revealed_after_delay (w : World) (T : Z) :
  Reachable w -> storeStatus w = CONNECTED -> clock w <= T ->
  let w1 := statusChange T DISCONNECTED w in
  (forall t, t < T + 5000 -> shouldDisplay (advanceTo t w1) = false) /\
  (forall t, T + 5000 <= t ->
     shouldDisplay (advanceTo t w1) = true /\
     delayedStatus (advanceTo t w1) = DISCONNECTED) /\
  shouldDisplay (advanceTo (T + 4999) w1) = false /\
  shouldDisplay (advanceTo (T + 5000) w1) = true /\
  delayedStatus (advanceTo (T + 5000) w1) = DISCONNECTED.
Proof.
  intros R Es Hc. cbn zeta.
  pose proof (reachable_Inv w R) as I.
  pose proof (inv_connected_idle w I Es) as Hi.
  assert (N : DISCONNECTED <> CONNECTED) by discriminate.
  pose proof (statusChange_idle T DISCONNECTED w I Hi N) as (I1 & W1 & Es1 & _).
  cbn zeta in *. rewrite Z.max_r in W1 by lia.
  pose proof (waiting_timeline T _ I1 W1) as (Early & Late).
  change (T + DISCONNECTION_DELAY) with (T + 5000) in *.
  rewrite Es1 in Late. unfold shouldDisplay.
  assert (E : forall t, t < T + 5000 ->
                negb (hideCloudConnection
                        (advanceTo t (statusChange T DISCONNECTED w))) = false).
  { intros t Ht. destruct (Early t Ht) as (-> & _). reflexivity. }
  assert (L : forall t, T + 5000 <= t ->
                negb (hideCloudConnection
                        (advanceTo t (statusChange T DISCONNECTED w))) = true /\
                delayedStatus (advanceTo t (statusChange T DISCONNECTED w))
                = DISCONNECTED).
  { intros t Ht. destruct (Late t Ht) as (-> & -> & _). auto. }
  split; [exact E|]. split; [exact L|].
  split; [apply E; lia|]. apply L. lia.
Qed.

(** The same for a component mounted at time 0. *)
Lemma disconnect_revealed_after_delay_witness :
  let w1 := statusChange 0 DISCONNECTED (mount 0 CONNECTED) in
  shouldDisplay (advanceTo 4999 w1) = false /\
  shouldDisplay (advanceTo 5000 w1) = true /\
  delayedStatus (advanceTo 5000 w1) = DISCONNECTED.
Proof.
  exact (proj2 (proj2 (disconnect_revealed_after_delay
                         (mount 0 CONNECTED) 0
                         (R_mount 0 CONNECTED) eq_refl (Z.le_refl 0)))).
Defined.

(** C2, amended.  A run of the effect calls [refreshApplets] exactly once
    when its status is CONNECTED or DISCONNECTED and not at all when it is
    CONNECTING or ERROR.  The effect also runs when the component mounts:
    mounted at time 0 with the store CONNECTED and then told DISCONNECTED
    at 0, ERROR at 1000 and CONNECTED at 1500, the component has called
    [refreshApplets] three times, once in the mount run and twice for the
    reports. *)
Theorem refresh_once_per_run_of_effect :
  (forall w, refreshCalls (onStatusChanged CONNECTED w) = S (refreshCalls w)) /\
  (forall w, refreshCalls (onStatusChanged DISCONNECTED w) = S (refreshCalls w)) /\
  (forall w, refreshCalls (onStatusChanged CONNECTING w) = refreshCalls w) /\
  (forall w, refreshCalls (onStatusChanged ERROR w) = refreshCalls w) /\
  refreshCalls (mount 0 CONNECTED) = 1%nat /\
  refreshCalls (feed scenarioRun (mount 0 CONNECTED)) = 3%nat.
Proof.
  repeat split; try (intros w; rewrite onStatusChanged_refresh; cbn; lia);
    vm_compute; reflexivity.
Qed.

(** With the mount run the count of the scenario is not two. *)
Lemma scenario_refresh_count_not_two :
  refreshCalls (feed scenarioRun (mount 0 CONNECTED)) <> 2%nat.
Proof. vm_compute. discriminate. Qed.

(** C3.  When a timeout is pending and CONNECTED is reported before its
    deadline, the report cancels it (no timeout is left, the ref is
    cleared) and the banner is not displayed at any later time, with no
    reveal on the way.  The timer callback itself changes nothing when the
    store's status is CONNECTED.  For instance DISCONNECTED at [T] and
    CONNECTED at [T + 2000] leave the banner hidden at [T + 5000]. *)
Theorem recovery_cancels_reveal :
  (forall w h d t,
     Reachable w -> timers w = [(h, d)] -> t < d ->
     let w' := statusChange t CONNECTED w in
     timers w' = [] /\
     disconnectionTimerRef w' = None /\
     forall t', shouldDisplay (advanceTo t' w') = false /\
                timers (advanceTo t' w') = [] /\
                reveals (advanceTo t' w') = reveals w) /\
  (forall w, storeStatus w = CONNECTED -> timerCallback w = w) /\
  (forall w T,
     Reachable w -> storeStatus w = CONNECTED -> clock w <= T ->
     shouldDisplay
       (advanceTo (T + 5000)
          (statusChange (T + 2000) CONNECTED
             (statusChange T DISCONNECTED w))) = false).
Proof.
  split; [|split].
  - intros w h d t R Htm Ht. cbn zeta.
    pose proof (reachable_Inv w R) as I.
    pose proof (statusChange_connected t w I) as (I' & Hi & _). cbn zeta in *.
    pose proof Hi as (_ & _ & _ & Hr & Ht0).
    split; [exact Ht0|]. split; [exact Hr|]. intros t'.
    pose proof (advanceTo_idle t' _ Hi) as (Hh & Hn & Ev).
    unfold shouldDisplay. rewrite Hh, Ev. split; [reflexivity|].
    split; [exact Hn|].
    (* no reveal before or in the report *)
    destruct I as [Hd C].
    destruct C as [_ (_ & _ & _ & _ & E) | T N W | T _ (_ & _ & _ & _ & _ & E)];
      [congruence | | congruence].
    pose proof W as (Hhw & Hf & Hc & h' & Hr' & Htm').
    assert (d = T + DISCONNECTION_DELAY) by congruence. subst d.
    unfold statusChange. rewrite (advanceTo_waiting_early T t w W Ht).
    set (w1 := setStoreStatus CONNECTED _).
    assert (D : depsChanged w1 = true).
    { unfold depsChanged, currentDeps. subst w1. cbn. rewrite Hd.
      unfold deps_eqb. cbn. now rewrite (status_eqb_neq _ _ N). }
    pose proof (onStatusChanged_connected_fields
                  (setEffectDeps (Some (currentDeps w1)) w1))
      as (Eh & _ & _ & _ & _ & Evv & _).
    cbn zeta in *.
    change CONNECTED with (storeStatus w1) in Eh at 1, Evv at 1.
    rewrite <- runEffect_body in *.
    rewrite (render_once w1 D); [exact Evv|].
    rewrite Eh. subst w1. cbn. now rewrite Hhw.
  - intros w E. unfold timerCallback. rewrite E. reflexivity.
  - intros w T R Es Hc.
    pose proof (reachable_Inv w R) as I.
    pose proof (statusChange_Inv T DISCONNECTED w I) as (I1 & _). cbn zeta in *.
    pose proof (statusChange_connected (T + 2000) _ I1) as (_ & Hi & _).
    cbn zeta in *.
    pose proof (advanceTo_idle (T + 5000) _ Hi) as (Hh & _).
    unfold shouldDisplay. now rewrite Hh.
Qed.

(** The same for DISCONNECTED at 0 and CONNECTED at 2000. *)
Lemma recovery_cancels_reveal_witness :
  let w := statusChange 0 DISCONNECTED (mount 0 CONNECTED) in
  timers w = [(1%positive, 5000)] /\
  timers (statusChange 2000 CONNECTED w) = [] /\
  shouldDisplay (advanceTo 5000 (statusChange 2000 CONNECTED w)) = false.
Proof.
  cbn zeta. split; [vm_compute; reflexivity|].
  pose proof (proj1 recovery_cancels_reveal
                (statusChange 0 DISCONNECTED (mount 0 CONNECTED))
                1%positive 5000 2000
                (R_status _ 0 DISCONNECTED (R_mount 0 CONNECTED))
                eq_refl eq_refl) as (Ht & _ & H).
  split; [exact Ht|]. exact (proj1 (H 5000)).
Defined.

(** C4.  A mounted component whose store is CONNECTED receives a burst of
    non-connected reports, the first at time [T] and the others in time
    order before [T + 5000].  Afterwards exactly one timeout is pending,
    due at [T + 5000]; the banner is not displayed and nothing has been
    revealed at any time before [T + 5000]; and at every time from
    [T + 5000] on the banner is displayed with the status of the last
    report, after exactly one reveal, with no timeout left. *)
Theorem burst_single_reveal
    (w : World) (T : Z) (s : WebSocketStatus)
    (evs : list (Z * WebSocketStatus)) :
  Reachable w -> storeStatus w = CONNECTED -> clock w <= T ->
  s <> CONNECTED -> burst T (T + 5000) evs ->
  let w' := feed ((T, s) :: evs) w in
  (exists h, timers w' = [(h, T + 5000)]) /\
  (forall t, t < T + 5000 ->
     shouldDisplay (advanceTo t w') = false /\
     reveals (advanceTo t w') = reveals w) /\
  (forall t, T + 5000 <= t ->
     shouldDisplay (advanceTo t w') = true /\
     delayedStatus (advanceTo t w') = lastStatus s evs /\
     reveals (advanceTo t w') = S (reveals w) /\
     timers (advanceTo t w') = []).
Proof.
  intros R Es Hc Hs B. cbn zeta. cbn [feed].
  pose proof (reachable_Inv w R) as I.
  pose proof (inv_connected_idle w I Es) as Hi.
  pose proof (statusChange_idle T s w I Hi Hs) as (I1 & W1 & Es1 & Ev1 & _).
  cbn zeta in *. rewrite Z.max_r in W1 by lia.
  pose proof (feed_waiting T evs T _ I1 W1 B) as (I2 & W2 & Es2 & Ev2).
  cbn zeta in *. rewrite Es1 in Es2. rewrite Ev1 in Ev2.
  pose proof (waiting_timeline T _ I2 W2) as (Early & Late).
  change (T + DISCONNECTION_DELAY) with (T + 5000) in *.
  unfold shouldDisplay. split; [|split].
  - destruct W2 as (_ & _ & _ & h & _ & Htm). exists h. exact Htm.
  - intros t Ht. destruct (Early t Ht) as (-> & ->). auto.
  - intros t Ht. destruct (Late t Ht) as (-> & -> & -> & ->).
    rewrite Es2, Ev2. auto.
Qed.

(** The same for CONNECTING, ERROR and DISCONNECTED 100 ms apart. *)
Lemma burst_single_reveal_witness :
  let w' := feed [(0, CONNECTING); (100, ERROR); (200, DISCONNECTED)]
              (mount 0 CONNECTED) in
  burst 0 5000 [(100, ERROR); (200, DISCONNECTED)] /\
  shouldDisplay (advanceTo 4999 w') = false /\
  shouldDisplay (advanceTo 5000 w') = true /\
  delayedStatus (advanceTo 5000 w') = DISCONNECTED /\
  reveals (advanceTo 9000 w') = 1%nat.
Proof.
  assert (B : burst 0 (0 + 5000) [(100, ERROR); (200, DISCONNECTED)]).
  { cbn. repeat split; (lia || discriminate). }
  assert (N : CONNECTING <> CONNECTED) by discriminate.
  pose proof (burst_single_reveal (mount 0 CONNECTED) 0 CONNECTING
                [(100, ERROR); (200, DISCONNECTED)]
                (R_mount 0 CONNECTED) eq_refl (Z.le_refl 0) N B)
    as (_ & Early & Late).
  cbn zeta. split; [exact B|].
  split; [apply (Early 4999); lia|].
  destruct (Late 5000) as (L1 & L2 & _); [lia|].
  destruct (Late 9000) as (_ & _ & L3 & _); [lia|].
  auto.
Defined.

(** C5.  Whatever the cells hold, a run of the effect for CONNECTED hides
    the banner at once: [hideCloudConnection] is true (so [shouldDisplay]
    is false), [delayedStatus] is CONNECTED, the first-disconnection time
    and the timer ref are cleared; and when the pending timeouts are the
    ref's, none is left on the host's table. *)
Theorem connected_hides_immediately (w : World) :
  let w' := onStatusChanged CONNECTED w in
  hideCloudConnection w' = true /\
  shouldDisplay w' = false /\
  delayedStatus w' = CONNECTED /\
  firstDisconnectedTimeRef w' = None /\
  disconnectionTimerRef w' = None /\
  (TimersOwned w -> timers w' = []).
Proof.
  cbn zeta. rewrite onStatusChanged_connected.
  unfold shouldDisplay. cbn.
  repeat split; try apply cancelPendingTimer_ref.
  apply cancelPendingTimer_owned.
Qed.

(** The same at a state with a pending timeout. *)
Lemma connected_hides_immediately_witness :
  let w := statusChange 0 DISCONNECTED (mount 0 CONNECTED) in
  timers w = [(1%positive, 5000)] /\
  TimersOwned w /\
  timers (onStatusChanged CONNECTED w) = [] /\
  shouldDisplay (onStatusChanged CONNECTED w) = false.
Proof.
  cbn zeta. split; [vm_compute; reflexivity|].
  assert (O : TimersOwned (statusChange 0 DISCONNECTED (mount 0 CONNECTED))).
  { apply (cells_timers DISCONNECTED).
    apply (reachable_Inv _ (R_status _ 0 DISCONNECTED (R_mount 0 CONNECTED))). }
  pose proof (connected_hides_immediately
                (statusChange 0 DISCONNECTED (mount 0 CONNECTED)))
    as (_ & Hs & _ & _ & _ & Ht).
  split; [exact O|]. split; [exact (Ht O) | exact Hs].
Defined.

(** C6.  In every state of a mounted component at most one timeout is
    pending, and it is the one the ref holds.  A run of the effect starts
    by cancelling it and clearing the ref, the rest of the run acts on the
    cancelled state, and at most one timeout is pending again afterwards.
    Unmounting leaves no timeout and clears the ref. *)
Theorem at_most_one_pending_timer (w : World) :
  Reachable w ->
  (List.length (timers w) <= 1)%nat /\
  TimersOwned w /\
  timers (cancelPendingTimer w) = [] /\
  disconnectionTimerRef (cancelPendingTimer w) = None /\
  (forall s,
     onStatusChanged s w = onStatusChanged s (cancelPendingTimer w) /\
     (List.length (timers (onStatusChanged s w)) <= 1)%nat) /\
  timers (unmount w) = [] /\
  disconnectionTimerRef (unmount w) = None.
Proof.
  intros R. destruct (reachable_Inv w R) as [_ C].
  destruct (cells_timers _ _ C) as (Hl & Ho).
  split; [exact Hl|]. split; [exact Ho|].
  split; [apply cancelPendingTimer_owned, Ho|].
  split; [apply cancelPendingTimer_ref|].
  split.
  - intros s. split; [symmetry; apply onStatusChanged_after_cancel|].
    apply (cells_timers s), effect_cells, (cells_runnable _ _ C).
  - unfold unmount, effectCleanup.
    split; [apply cancelPendingTimer_owned, Ho | apply cancelPendingTimer_ref].
Qed.

(** The same after three reports within the delay. *)
Lemma at_most_one_pending_timer_witness :
  let w := feed [(0, CONNECTING); (100, ERROR); (200, DISCONNECTED)]
             (mount 0 CONNECTED) in
  timers w = [(3%positive, 5000)] /\
  (List.length (timers w) <= 1)%nat /\
  timers (unmount w) = [].
Proof.
  cbn zeta. split; [vm_compute; reflexivity|].
  pose proof (at_most_one_pending_timer
                (feed [(0, CONNECTING); (100, ERROR); (200, DISCONNECTED)]
                   (mount 0 CONNECTED))
                (R_status _ 200 DISCONNECTED
                   (R_status _ 100 ERROR
                      (R_status _ 0 CONNECTING (R_mount 0 CONNECTED)))))
    as (Hl & _ & _ & _ & _ & Hu & _).
  split; [exact Hl | exact Hu].
Defined.

(** C7.  After a run of the effect for status [s] the first-disconnection
    time is unset exactly when [s] is CONNECTED; for any other status it
    holds the time recorded before, or the current time if none was.
    Hence in every state of a mounted component it is unset exactly when
    the status last reported by the store is CONNECTED. *)
Theorem disconnectedSince_none_iff_connected :
  (forall s w,
     let w' := onStatusChanged s w in
     (firstDisconnectedTimeRef w' = None <-> s = CONNECTED) /\
     firstDisconnectedTimeRef w' =
       if status_eqb s CONNECTED then None else Some (departure w)) /\
  (forall w, Reachable w ->
     (firstDisconnectedTimeRef w = None <-> storeStatus w = CONNECTED)).
Proof.
  split.
  - intros s w. cbn zeta.
    assert (E : firstDisconnectedTimeRef (onStatusChanged s w) =
                if status_eqb s CONNECTED then None else Some (departure w)).
    { destruct (status_eqb_spec s CONNECTED) as [->|Hs].
      - reflexivity.
      - destruct (Z.le_gt_cases DISCONNECTION_DELAY (clock w - departure w))
          as [L|L].
        + rewrite (onStatusChanged_late s w Hs L).
          destruct (status_eqb s DISCONNECTED); reflexivity.
        + rewrite (onStatusChanged_early s w Hs); [|lia].
          destruct (status_eqb s DISCONNECTED); reflexivity. }
    split; [|exact E]. rewrite E.
    destruct (status_eqb_spec s CONNECTED); split; congruence.
  - intros w R. apply inv_first_none_iff, reachable_Inv, R.
Qed.

(** The same after ERROR was reported to a connected component. *)
Lemma disconnectedSince_none_iff_connected_witness :
  let w := statusChange 0 ERROR (mount 0 CONNECTED) in
  firstDisconnectedTimeRef w = Some 0 /\
  (firstDisconnectedTimeRef w = None <-> storeStatus w = CONNECTED).
Proof.
  cbn zeta. split; [vm_compute; reflexivity|].
  exact (proj2 disconnectedSince_none_iff_connected
           (statusChange 0 ERROR (mount 0 CONNECTED))
           (R_status _ 0 ERROR (R_mount 0 CONNECTED))).
Defined.

(** C8.  The display mapping returns a result for every status, equal
    statuses get equal results, and a status that is none of CONNECTED,
    CONNECTING and ERROR, a value outside the enum included, gets the
    visuals of DISCONNECTED: the red gradient and the exclamation icon. *)
Theorem display_mapping_total_default (translate : string -> string) :
  (forall s, exists d, currentDisplay translate s = d) /\
  (forall s s', s = s' ->
     currentDisplay translate s = currentDisplay translate s') /\
  (forall s, s <> CONNECTED -> s <> CONNECTING -> s <> ERROR ->
     currentDisplay translate s = currentDisplay translate DISCONNECTED /\
     getGradientColors s = getGradientColors DISCONNECTED /\
     getIcon translate s = getIcon translate DISCONNECTED) /\
  currentDisplay translate DISCONNECTED =
    {| gradientColors := ["#FF8A80"; "#FF5252"]%string;
       iconName := "exclamation-circle";
       iconColor := "#FF5252";
       statusLabel := translate "connection:disconnected" |}.
Proof.
  split; [|split; [|split]].
  - intros s. eexists. reflexivity.
  - intros s s' ->. reflexivity.
  - intros s H1 H2 H3. destruct s; try contradiction; auto.
  - reflexivity.
Qed.

(** The same for a value outside the enum. *)
Lemma display_mapping_total_default_witness :
  currentDisplay (fun key => key) (OTHER "closing") =
  currentDisplay (fun key => key) DISCONNECTED.
Proof.
  refine (proj1 (proj1 (proj2 (proj2
            (display_mapping_total_default (fun key => key))))
            (OTHER "closing") _ _ _)); discriminate.
Defined.

(** C9.  The initial cells are hidden, and a run of the effect, the timer
    callback and the cleanup each keep: when [hideCloudConnection] is false,
    [delayedStatus] is not CONNECTED.  So it holds in every state of a
    mounted component. *)
Theorem revealed_never_connected :
  (forall t s, RevealOK (initialWorld t s)) /\
  (forall s w, RevealOK w -> RevealOK (onStatusChanged s w)) /\
  (forall w, RevealOK w -> RevealOK (timerCallback w)) /\
  (forall w, RevealOK w -> RevealOK (effectCleanup w)) /\
  (forall w, Reachable w -> RevealOK w).
Proof.
  unfold RevealOK. split; [|split; [|split; [|split]]].
  - cbn. discriminate.
  - intros s w H.
    destruct (status_eqb_spec s CONNECTED) as [->|Hs].
    + rewrite onStatusChanged_connected. cbn. discriminate.
    + destruct (Z.le_gt_cases DISCONNECTION_DELAY (clock w - departure w))
        as [L|L].
      * rewrite (onStatusChanged_late s w Hs L).
        destruct (status_eqb s DISCONNECTED); cbn; intros _; exact Hs.
      * rewrite (onStatusChanged_early s w Hs); [|lia].
        pose proof (cancelPendingTimer_frame w) as (Eh & Ed & _).
        destruct (status_eqb s DISCONNECTED); cbn;
          rewrite Eh, Ed; exact H.
  - intros w H. unfold timerCallback.
    destruct (status_eqb_spec (storeStatus w) CONNECTED) as [E|N]; cbn.
    + exact H.
    + intros _. exact N.
  - intros w H. unfold effectCleanup.
    pose proof (cancelPendingTimer_frame w) as (Eh & Ed & _).
    rewrite Eh, Ed. exact H.
  - intros w R. apply (inv_revealOK w), reachable_Inv, R.
Qed.

(** The same at a state whose banner is displayed. *)
Lemma revealed_never_connected_witness :
  let w := advanceTo 5000 (statusChange 0 DISCONNECTED (mount 0 CONNECTED)) in
  hideCloudConnection w = false /\
  RevealOK w /\
  RevealOK (onStatusChanged ERROR w) /\
  RevealOK (timerCallback w).
Proof.
  cbn zeta. split; [vm_compute; reflexivity|].
  assert (H : RevealOK
                (advanceTo 5000
                   (statusChange 0 DISCONNECTED (mount 0 CONNECTED)))).
  { intros _. vm_compute. discriminate. }
  destruct revealed_never_connected as (_ & He & Hc & _).
  split; [exact H|]. split; [apply He, H | apply Hc, H].
Defined.

(** C10.  A run of the effect for a non-connected status, less than
    [DISCONNECTION_DELAY] after the departure from CONNECTED, leaves
    [delayedStatus], [hideCloudConnection] and the animation target as they
    were.  It records the departure time, arms one timeout for the rest of
    the delay and stores its handle, and calls [refreshApplets] once if the
    status is DISCONNECTED and not otherwise. *)
Theorem early_nonconnected_keeps_display (s : WebSocketStatus) (w : World) :
  s <> CONNECTED ->
  clock w - departure w < DISCONNECTION_DELAY ->
  let w' := onStatusChanged s w in
  delayedStatus w' = delayedStatus w /\
  hideCloudConnection w' = hideCloudConnection w /\
  cloudConnectionStatusAnim w' = cloudConnectionStatusAnim w /\
  reveals w' = reveals w /\
  firstDisconnectedTimeRef w' = Some (departure w) /\
  disconnectionTimerRef w' = Some (nextTimerId w) /\
  timers w' =
    (timers (cancelPendingTimer w) ++
     [(nextTimerId w,
       clock w + (DISCONNECTION_DELAY - (clock w - departure w)))])%list /\
  refreshCalls w' = (refreshCalls w + refreshesFor s)%nat /\
  storeStatus w' = storeStatus w /\
  clock w' = clock w.
Proof.
  intros Hs Hearly.
  pose proof (onStatusChanged_early_fields s w Hs Hearly) as H.
  cbn zeta in *. tauto.
Qed.

(** The same one second after the departure. *)
Lemma early_nonconnected_keeps_display_witness :
  let w := advanceTo 1000 (statusChange 0 DISCONNECTED (mount 0 CONNECTED)) in
  clock w - departure w < DISCONNECTION_DELAY /\
  delayedStatus (onStatusChanged ERROR w) = delayedStatus w /\
  hideCloudConnection (onStatusChanged ERROR w) = hideCloudConnection w.
Proof.
  cbn zeta.
  assert (L : clock (advanceTo 1000
                       (statusChange 0 DISCONNECTED (mount 0 CONNECTED))) -
              departure (advanceTo 1000
                           (statusChange 0 DISCONNECTED (mount 0 CONNECTED)))
              < DISCONNECTION_DELAY) by reflexivity.
  assert (N : ERROR <> CONNECTED) by discriminate.
  pose proof (early_nonconnected_keeps_display ERROR _ N L) as (Hd & Hh & _).
  split; [exact L|]. split; [exact Hd | exact Hh].
Defined.

(** ** Further properties of the component *)

(** *** Invariants kept by every operation *)

Section KeptByEveryOperation.

(** A property of the cells that the initial cells have and that the
    effect, the timer callback, the cleanup and the host's own updates
    keep holds in every state of a mounted component. *)
Variable P : World -> Prop.
Hypothesis P_initial : forall t s, P (initialWorld t s).
Hypothesis P_effect : forall s w, P w -> P (onStatusChanged s w).
Hypothesis P_callback : forall w, P w -> P (timerCallback w).
Hypothesis P_cleanup : forall w, P w -> P (effectCleanup w).
Hypothesis P_deps : forall d w, P w -> P (setEffectDeps d w).
Hypothesis P_store : forall s w, P w -> P (setStoreStatus s w).
Hypothesis P_clock : forall t w, P w -> P (setClock t w).
Hypothesis P_clear : forall h w, P w -> P (clearTimeout h w).








End KeptByEveryOperation.



Lemma render_cases (w : World) :
  render w = w \/ render w = runEffect w \/
  render w = runEffect (runEffect w).
Proof.
  unfold render, commit. destruct (depsChanged w); [|auto].
  destruct (depsChanged (runEffect w)); auto.
Qed.







(** *** The effect and its dependencies *)

Lemma onStatusChanged_hide (s : WebSocketStatus) (w : World) :
  hideCloudConnection (onStatusChanged s w) =
  if status_eqb s CONNECTED then true
  else if DISCONNECTION_DELAY <=? clock w - departure w then false
       else hideCloudConnection w.
Proof.
  destruct (status_eqb_spec s CONNECTED) as [->|Hs].
  - pose proof (onStatusChanged_connected_fields w) as H. cbn zeta in H. tauto.
  - destruct (Z.leb_spec DISCONNECTION_DELAY (clock w - departure w)) as [L|L].
    + pose proof (onStatusChanged_late_fields s w Hs L) as H.
      cbn zeta in H. tauto.
    + pose proof (onStatusChanged_early_fields s w Hs L) as H.
      cbn zeta in H. tauto.
Qed.

Lemma onStatusChanged_departure (s : WebSocketStatus) (w : World) :
  s <> CONNECTED -> departure (onStatusChanged s w) = departure w.
Proof.
  intros Hs. unfold departure at 1.
  destruct (Z.le_gt_cases DISCONNECTION_DELAY (clock w - departure w)) as [L|L].
  - pose proof (onStatusChanged_late_fields s w Hs L) as (_ & _ & -> & _).
    reflexivity.
  - assert (L' : clock w - departure w < DISCONNECTION_DELAY) by lia.
    pose proof (onStatusChanged_early_fields s w Hs L')
      as (_ & _ & _ & _ & -> & _).
    reflexivity.
Qed.

(** A second run for the same status, at the same instant, leaves
    [hideCloudConnection] as the first run set it. *)
Lemma effect_twice_hide (s : WebSocketStatus) d (w : World) :
  hideCloudConnection
    (onStatusChanged s (setEffectDeps d (onStatusChanged s w))) =
  hideCloudConnection (onStatusChanged s w).
Proof.
  set (w1 := onStatusChanged s w).
  rewrite onStatusChanged_hide.
  destruct (status_eqb_spec s CONNECTED) as [->|Hs].
  - subst w1. rewrite onStatusChanged_hide. reflexivity.
  - change (clock (setEffectDeps d w1)) with (clock w1).
    change (departure (setEffectDeps d w1)) with (departure w1).
    change (hideCloudConnection (setEffectDeps d w1))
      with (hideCloudConnection w1).
    pose proof (onStatusChanged_frame s w) as (_ & Ec & _). cbn zeta in Ec.
    subst w1. rewrite Ec, (onStatusChanged_departure s w Hs).
    destruct (Z.leb_spec DISCONNECTION_DELAY (clock w - departure w)) as [L|L];
      [|reflexivity].
    rewrite onStatusChanged_hide, (status_eqb_neq _ _ Hs).
    destruct (Z.leb_spec DISCONNECTION_DELAY (clock w - departure w));
      [reflexivity | lia].
Qed.

(** X3.  Although the effect writes [hideCloudConnection], one of its own
    dependencies, it cannot loop: from any state two runs settle it, so
    after [render] the dependencies are unchanged and rendering again
    changes nothing. *)
Theorem render_settles (w : World) :
  depsChanged (render w) = false /\ render (render w) = render w.
Proof.
  assert (S : depsChanged (render w) = false).
  { unfold render, commit. destruct (depsChanged w) eqn:D; [|exact D].
    destruct (depsChanged (runEffect w)) eqn:D1; [|exact D1].
    apply depsChanged_false.
    pose proof (runEffect_frame (runEffect w)) as (Es & _ & Ed).
    cbn zeta in *. rewrite Ed. unfold currentDeps. rewrite Es. f_equal. f_equal.
    rewrite (runEffect_body (runEffect w)).
    pose proof (runEffect_frame w) as (Es1 & _). cbn zeta in Es1. rewrite Es1.
    rewrite (runEffect_body w). symmetry. apply effect_twice_hide. }
  split; [exact S | apply render_idle, S].
Qed.

(** X4.  The cleanup is idempotent, and running it before the effect
    makes no difference to the effect, whose body starts with the same
    cancellation. *)
Theorem cleanup_redundant_before_effect (s : WebSocketStatus) (w : World) :
  effectCleanup (effectCleanup w) = effectCleanup w /\
  onStatusChanged s (effectCleanup w) = onStatusChanged s w.
Proof.
  unfold effectCleanup. split.
  - apply cancelPendingTimer_idem.
  - apply onStatusChanged_after_cancel.
Qed.

(** *** Mounting, repeated and late reports *)

Lemma initialWorld_runnable (t : Z) (s : WebSocketStatus) :
  Runnable (initialWorld t s).
Proof.
  unfold Runnable, TimersOwned, departure, initialWorld. cbn.
  split; [intros x [] | split; [lia | reflexivity]].
Qed.

Lemma runEffect_refresh (w : World) :
  refreshCalls (runEffect w) =
  (refreshCalls w + refreshesFor (storeStatus w))%nat.
Proof. rewrite runEffect_body, onStatusChanged_refresh. reflexivity. Qed.

Lemma mount_waiting (t : Z) (s : WebSocketStatus) :
  s <> CONNECTED ->
  IsWaiting t (mount t s) /\
  storeStatus (mount t s) = s /\
  refreshCalls (mount t s) = refreshesFor s.
Proof.
  intros Hs. unfold mount.
  set (w0 := initialWorld t s).
  assert (D : depsChanged w0 = true) by reflexivity.
  set (w1 := setEffectDeps (Some (currentDeps w0)) w0).
  assert (L : clock w1 - departure w1 < DISCONNECTION_DELAY).
  { unfold departure. cbn. unfold DISCONNECTION_DELAY. lia. }
  pose proof (effect_to_waiting s w1 Hs (initialWorld_runnable t s) L) as W.
  pose proof (onStatusChanged_early_fields s w1 Hs L) as (_ & Eh & _).
  cbn zeta in *.
  pose proof (runEffect_body w0) as B. change (storeStatus w0) with s in B.
  fold w1 in B. rewrite <- B in *.
  rewrite (render_once w0 D Eh).
  pose proof (runEffect_frame w0) as (Es & _). cbn zeta in Es.
  pose proof (runEffect_refresh w0) as Er.
  split; [exact W|]. split; [exact Es | exact Er].
Qed.

(** X5.  A component mounted at time [t] while the store is not connected
    starts hidden, shows the store's status from [t + 5000] on unless a
    report intervenes, and in its mount run calls [refreshApplets] once
    for DISCONNECTED and not at all for any other such status. *)
Theorem mount_nonconnected_delayed (t : Z) (s : WebSocketStatus) :
  s <> CONNECTED ->
  (forall t', t' < t + 5000 -> shouldDisplay (advanceTo t' (mount t s)) = false) /\
  (forall t', t + 5000 <= t' ->
     shouldDisplay (advanceTo t' (mount t s)) = true /\
     delayedStatus (advanceTo t' (mount t s)) = s) /\
  refreshCalls (mount t s) = refreshesFor s.
Proof.
  intros Hs. destruct (mount_waiting t s Hs) as (W & Es & Er).
  pose proof (waiting_timeline t _ (mount_Inv t s) W) as (Early & Late).
  change (t + DISCONNECTION_DELAY) with (t + 5000) in *.
  unfold shouldDisplay. split; [|split; [|exact Er]].
  - intros t' Ht. destruct (Early t' Ht) as (-> & _). reflexivity.
  - intros t' Ht. destruct (Late t' Ht) as (-> & -> & _). auto.
Qed.

Lemma mount_nonconnected_delayed_witness :
  shouldDisplay (advanceTo 4999 (mount 0 CONNECTING)) = false /\
  shouldDisplay (advanceTo 5000 (mount 0 CONNECTING)) = true /\
  refreshCalls (mount 0 DISCONNECTED) = 1%nat.
Proof.
  assert (N : CONNECTING <> CONNECTED) by discriminate.
  assert (N' : DISCONNECTED <> CONNECTED) by discriminate.
  destruct (mount_nonconnected_delayed 0 CONNECTING N) as (E & L & _).
  destruct (mount_nonconnected_delayed 0 DISCONNECTED N') as (_ & _ & R).
  split; [apply E; lia|]. split; [apply L; lia | exact R].
Defined.

Lemma setStoreStatus_same (w : World) : setStoreStatus (storeStatus w) w = w.
Proof. destruct w. reflexivity. Qed.

(** X6.  Reporting the status the component already rendered does
    nothing: no run of the effect, so no timeout is re-armed and
    [refreshApplets] is not called; only time passes. *)
Theorem repeated_status_ignored (t : Z) (w : World) :
  Reachable w -> statusChange t (storeStatus w) w = advanceTo t w.
Proof.
  intros R. pose proof (advanceTo_Inv t w (reachable_Inv w R)) as ([D _] & Es & _).
  unfold statusChange. rewrite <- Es, setStoreStatus_same.
  apply render_idle, depsChanged_false, D.
Qed.

Lemma repeated_status_ignored_witness :
  let w := statusChange 0 ERROR (mount 0 CONNECTED) in
  statusChange 1000 ERROR w = advanceTo 1000 w.
Proof.
  exact (repeated_status_ignored 1000 _
           (R_status _ 0 ERROR (R_mount 0 CONNECTED))).
Defined.

Lemma inv_displayed_shown (w : World) :
  Inv w -> hideCloudConnection w = false ->
  exists T, storeStatus w <> CONNECTED /\ IsShown (storeStatus w) T w.
Proof.
  intros [_ [E (Hh & _) | T N (Hh & _) | T N H]] Hf; try congruence.
  exists T. auto.
Qed.

(** X7.  Once the banner is displayed, a report of another non-connected
    status is displayed at once: no delay, no timeout, and no further
    reveal is counted. *)
Theorem displayed_follows_reports (t : Z) (s : WebSocketStatus) (w : World) :
  Reachable w -> shouldDisplay w = true -> s <> CONNECTED ->
  let w' := statusChange t s w in
  shouldDisplay w' = true /\
  delayedStatus w' = s /\
  timers w' = [] /\
  reveals w' = reveals w.
Proof.
  intros R Hd Hs. cbn zeta. unfold shouldDisplay in *.
  assert (Hh : hideCloudConnection w = false)
    by (destruct (hideCloudConnection w); [discriminate | reflexivity]).
  pose proof (reachable_Inv w R) as I.
  destruct (inv_displayed_shown w I Hh) as (T & N & Sh).
  pose proof Sh as (_ & Hds & Hf & Hc & Hr & Ht).
  unfold statusChange. rewrite (advanceTo_no_timers t w Ht).
  set (w1 := setClock (Z.max (clock w) t) w).
  assert (I1 : Inv w1).
  { apply setClock_Inv; [exact I | lia |]. intros T' (Hh' & _). congruence. }
  destruct (status_eqb_spec s (storeStatus w)) as [->|Ne].
  - change (storeStatus w) with (storeStatus w1).
    rewrite setStoreStatus_same, render_idle
      by (apply depsChanged_false, I1).
    cbn. rewrite Hh, Hds, Ht. auto.
  - set (w2 := setStoreStatus s w1).
    assert (D : depsChanged w2 = true).
    { unfold depsChanged. destruct I1 as [Hd1 _].
      change (effectDeps w2) with (effectDeps w1). rewrite Hd1.
      unfold deps_eqb, currentDeps. cbn.
      rewrite (status_eqb_neq (storeStatus w) s) by congruence. reflexivity. }
    set (w3 := setEffectDeps (Some (currentDeps w2)) w2).
    assert (L : DISCONNECTION_DELAY <= clock w3 - departure w3).
    { unfold departure. cbn. rewrite Hf. lia. }
    pose proof (onStatusChanged_late_fields s w3 Hs L)
      as (Eh & Ed & _ & _ & Et & Ev & _).
    cbn zeta in *.
    pose proof (runEffect_body w2) as B. change (storeStatus w2) with s in B.
    fold w3 in B. rewrite <- B in *.
    assert (O : TimersOwned w3).
    { unfold TimersOwned. cbn. rewrite Ht. intros x []. }
    rewrite (cancelPendingTimer_owned w3 O) in Et.
    rewrite (render_once w2 D) by (rewrite Eh; cbn; congruence).
    rewrite Eh, Ed, Et, Ev. cbn. rewrite Hh. auto.
Qed.

Lemma displayed_follows_reports_witness :
  let w := advanceTo 5000 (statusChange 0 CONNECTING (mount 0 CONNECTED)) in
  shouldDisplay w = true /\
  shouldDisplay (statusChange 6000 ERROR w) = true /\
  delayedStatus (statusChange 6000 ERROR w) = ERROR.
Proof.
  cbn zeta.
  assert (D : shouldDisplay
                (advanceTo 5000 (statusChange 0 CONNECTING (mount 0 CONNECTED)))
              = true) by (vm_compute; reflexivity).
  assert (N : ERROR <> CONNECTED) by discriminate.
  destruct (displayed_follows_reports 6000 ERROR _
              (R_time _ 5000 (R_status _ 0 CONNECTING (R_mount 0 CONNECTED)))
              D N) as (H1 & H2 & _).
  auto.
Defined.

(** *** How often the applets are refreshed *)




Lemma timerCallback_fields (w : World) :
  storeStatus w <> CONNECTED ->
  let w' := timerCallback w in
  hideCloudConnection w' = false /\
  firstDisconnectedTimeRef w' = firstDisconnectedTimeRef w /\
  effectDeps w' = effectDeps w /\
  storeStatus w' = storeStatus w /\
  clock w' = clock w /\
  refreshCalls w' = refreshCalls w.
Proof.
  intros N. cbn zeta. unfold timerCallback.
  rewrite (status_eqb_neq _ _ N). cbn. auto 10.
Qed.

(** X9.  When the pending timeout fires, the change of
    [hideCloudConnection] runs the effect once more: the banner is
    revealed, and [refreshApplets] is called again if the store's status
    is DISCONNECTED, and not for any other status. *)
Theorem reveal_refreshes_again (t d : Z) (h : TimerId) (w : World) :
  Reachable w -> timers w = [(h, d)] -> d <= t ->
  shouldDisplay (advanceTo t w) = true /\
  reveals (advanceTo t w) = S (reveals w) /\
  refreshCalls (advanceTo t w) =
  (refreshCalls w + refreshesFor (storeStatus w))%nat.
Proof.
  intros R Htm Hd. pose proof (reachable_Inv w R) as I.
  pose proof I as [Hdeps C].
  destruct C as [_ (_ & _ & _ & _ & E) | T N W | T _ (_ & _ & _ & _ & _ & E)];
    [congruence | | congruence].
  pose proof W as (Hh & Hf & Hc & h' & Hr & Htm').
  assert (h' = h /\ d = T + DISCONNECTION_DELAY) as (-> & ->)
    by (split; congruence).
  pose proof (advanceTo_waiting_late T t w I W Hd)
    as (_ & (Hh' & _) & _ & _ & Ev).
  cbn zeta in *. unfold shouldDisplay. rewrite Hh', Ev.
  split; [reflexivity|]. split; [reflexivity|].
  (* the one timeout fires, then nothing is due *)
  pose proof (fireTimer_waiting T h w I W Hr) as (_ & Sh & _). cbn zeta in Sh.
  pose proof (dueTimer_waiting T t w W) as D.
  destruct (Z.leb_spec (T + DISCONNECTION_DELAY) t) as [_|]; [|lia].
  rewrite Hr in D. cbn [option_map] in D.
  unfold advanceTo. rewrite Htm. cbn [List.length runTimers]. rewrite D.
  rewrite (dueTimer_none t _ (proj2 (proj2 (proj2 (proj2 (proj2 Sh)))))).
  change (refreshCalls (setClock ?c ?x)) with (refreshCalls x).
  (* the callback, then one run of the effect *)
  unfold fireTimer. cbn [fst snd]. rewrite Z.max_r by lia.
  set (w2 := clearTimeout h (setClock (T + DISCONNECTION_DELAY) w)).
  assert (N2 : storeStatus w2 <> CONNECTED) by exact N.
  pose proof (timerCallback_fields w2 N2) as (Fh & Ff & Fe & Fs & Fc & Fr).
  cbn zeta in *. set (w3 := timerCallback w2) in *.
  assert (D3 : depsChanged w3 = true).
  { unfold depsChanged, currentDeps. rewrite Fe, Fs, Fh.
    change (effectDeps w2) with (effectDeps w). rewrite Hdeps.
    unfold deps_eqb, currentDeps. cbn. rewrite Hh.
    now rewrite Bool.andb_false_r. }
  assert (Eh : hideCloudConnection (runEffect w3) = hideCloudConnection w3).
  { rewrite runEffect_body, onStatusChanged_hide, Fs.
    rewrite (status_eqb_neq _ _ N2). unfold departure. cbn.
    rewrite Ff, Fc. change (firstDisconnectedTimeRef w2) with
      (firstDisconnectedTimeRef w). rewrite Hf.
    change (clock w2) with (T + DISCONNECTION_DELAY).
    destruct (Z.leb_spec DISCONNECTION_DELAY
                (T + DISCONNECTION_DELAY - T)); [congruence | lia]. }
  rewrite (render_once w3 D3 Eh), runEffect_refresh, Fr, Fs. reflexivity.
Qed.

Lemma reveal_refreshes_again_witness :
  let w := statusChange 0 DISCONNECTED (mount 0 CONNECTED) in
  refreshCalls w = 2%nat /\
  refreshCalls (advanceTo 5000 w) = 3%nat.
Proof.
  cbn zeta.
  assert (E : refreshCalls (statusChange 0 DISCONNECTED (mount 0 CONNECTED))
              = 2%nat) by (vm_compute; reflexivity).
  split; [exact E|].
  destruct (reveal_refreshes_again 5000 5000 1%positive _
              (R_status _ 0 DISCONNECTED (R_mount 0 CONNECTED))
              eq_refl (Z.le_refl 5000)) as (_ & _ & H).
  rewrite H, E. reflexivity.
Defined.

(** *** Timeouts, teardown and short outages *)



(** X11.  After unmounting nothing happens any more: whatever time passes,
    no timeout fires, so the cells, the reveal count and the refresh count
    stay as they were. *)
Theorem unmounted_stays_silent (t : Z) (w : World) :
  Reachable w ->
  let w' := advanceTo t (unmount w) in
  timers w' = [] /\
  hideCloudConnection w' = hideCloudConnection w /\
  delayedStatus w' = delayedStatus w /\
  reveals w' = reveals w /\
  refreshCalls w' = refreshCalls w.
Proof.
  intros R. cbn zeta. destruct (reachable_Inv w R) as [_ C].
  destruct (cells_timers _ _ C) as (_ & O).
  unfold unmount, effectCleanup.
  pose proof (cancelPendingTimer_owned w O) as Et.
  pose proof (cancelPendingTimer_frame w)
    as (Eh & Ed & _ & _ & _ & _ & _ & _ & Er & Ev).
  cbn zeta in *. rewrite (advanceTo_no_timers t _ Et). cbn.
  rewrite Et, Eh, Ed, Er, Ev. auto.
Qed.

Lemma unmounted_stays_silent_witness :
  let w := statusChange 0 DISCONNECTED (mount 0 CONNECTED) in
  shouldDisplay (advanceTo 9000 w) = true /\
  hideCloudConnection (advanceTo 9000 (unmount w)) = true.
Proof.
  cbn zeta. split; [vm_compute; reflexivity|].
  destruct (unmounted_stays_silent 9000 _
              (R_status _ 0 DISCONNECTED (R_mount 0 CONNECTED)))
    as (_ & -> & _).
  vm_compute; reflexivity.
Defined.

Lemma runEffect_connected_reveals (w : World) :
  storeStatus w = CONNECTED -> reveals (runEffect w) = reveals w.
Proof.
  intros E. rewrite runEffect_body, E.
  pose proof (onStatusChanged_connected_fields
                (setEffectDeps (Some (currentDeps w)) w)) as H.
  cbn zeta in H. destruct H as (_ & _ & _ & _ & _ & -> & _). reflexivity.
Qed.

(** CONNECTED never reveals anything. *)
Lemma statusChange_connected_reveals (t : Z) (w : World) :
  timers w = [] \/ (exists T, IsWaiting T w /\ t < T + DISCONNECTION_DELAY) ->
  reveals (statusChange t CONNECTED w) = reveals w.
Proof.
  intros H. unfold statusChange.
  assert (E : advanceTo t w = setClock (Z.max (clock w) t) w).
  { destruct H as [H | (T & W & Ht)];
      [apply advanceTo_no_timers, H | apply (advanceTo_waiting_early T), Ht; exact W]. }
  rewrite E. set (w2 := setStoreStatus CONNECTED _).
  assert (E2 : storeStatus w2 = CONNECTED) by reflexivity.
  destruct (render_cases w2) as [-> | [-> | ->]].
  - reflexivity.
  - now rewrite runEffect_connected_reveals.
  - rewrite runEffect_connected_reveals, runEffect_connected_reveals;
      [reflexivity | exact E2 |].
    pose proof (runEffect_frame w2) as (Es & _). cbn zeta in Es. congruence.
Qed.

Lemma feed_cons (t : Z) (s : WebSocketStatus)
    (r : list (Z * WebSocketStatus)) (w : World) :
  feed ((t, s) :: r) w = feed r (statusChange t s w).
Proof. reflexivity. Qed.

Lemma blipReports_cons (T R : Z) (s : WebSocketStatus)
    (r : list (Z * WebSocketStatus * Z)) :
  blipReports ((T, s, R) :: r) = (T, s) :: (R, CONNECTED) :: blipReports r.
Proof. reflexivity. Qed.

Lemma feed_blips (bs : list (Z * WebSocketStatus * Z)) :
  forall (lo : Z) (w : World),
    Inv w -> IsIdle w -> clock w <= lo -> blips lo bs ->
    let w' := feed (blipReports bs) w in
    Inv w' /\ IsIdle w' /\ reveals w' = reveals w.
Proof.
  induction bs as [|[[T s] R] r IH]; intros lo w I Hi Hc B; cbv zeta.
  - cbn [blipReports feed]. auto.
  - cbn [blips] in B. destruct B as (HT & HR & Hs & B).
    rewrite blipReports_cons, !feed_cons.
    destruct (statusChange_idle T s w I Hi Hs) as (I1 & W1 & _ & Ev1 & Ec1).
    rewrite Z.max_r in W1, Ec1 by lia.
    remember (statusChange T s w) as w1 eqn:E1. clear E1.
    destruct (statusChange_connected R w1 I1) as (I2 & Hi2 & _).
    destruct (statusChange_Inv R CONNECTED w1 I1) as (_ & _ & Ec2).
    rewrite Ec1, Z.max_r in Ec2 by lia.
    assert (Ev2 : reveals (statusChange R CONNECTED w1) = reveals w1).
    { apply statusChange_connected_reveals. right. exists T.
      split; [exact W1 | lia]. }
    remember (statusChange R CONNECTED w1) as w2 eqn:E2. clear E2.
    assert (Hc2 : clock w2 <= R) by lia.
    destruct (IH R w2 I2 Hi2 Hc2 B) as (I3 & Hi3 & Ev3).
    split; [exact I3|]. split; [exact Hi3|]. congruence.
Qed.

(** X12.  Outages shorter than the delay are never shown: after any
    sequence of departures from CONNECTED, each followed by CONNECTED less
    than 5000 ms later, no reveal has been counted, and the banner stays
    hidden however much time passes afterwards. *)
Theorem short_outages_never_shown
    (w : World) (bs : list (Z * WebSocketStatus * Z)) :
  Reachable w -> storeStatus w = CONNECTED -> blips (clock w) bs ->
  let w' := feed (blipReports bs) w in
  reveals w' = reveals w /\
  forall t, shouldDisplay (advanceTo t w') = false /\
            reveals (advanceTo t w') = reveals w.
Proof.
  intros R Es B. cbn zeta.
  pose proof (reachable_Inv w R) as I.
  pose proof (inv_connected_idle w I Es) as Hi.
  destruct (feed_blips bs (clock w) w I Hi (Z.le_refl _) B) as (_ & Hi' & Ev).
  cbn zeta in *. split; [exact Ev|]. intros t.
  destruct (advanceTo_idle t _ Hi') as (Hh & _ & Ev').
  unfold shouldDisplay. rewrite Hh, Ev', Ev. auto.
Qed.

Lemma short_outages_never_shown_witness :
  let bs := [(100, DISCONNECTED, 4000); (4500, ERROR, 9499)] in
  blips 0 bs /\
  shouldDisplay (advanceTo 20000 (feed (blipReports bs) (mount 0 CONNECTED)))
  = false.
Proof.
  cbn zeta.
  assert (B : blips (clock (mount 0 CONNECTED))
                [(100, DISCONNECTED, 4000); (4500, ERROR, 9499)]).
  { cbn [blips]. change (clock (mount 0 CONNECTED)) with 0.
    unfold DISCONNECTION_DELAY. repeat split; (lia || discriminate). }
  split; [exact B|].
  destruct (short_outages_never_shown (mount 0 CONNECTED) _
              (R_mount 0 CONNECTED) eq_refl B) as (_ & H).
  exact (proj1 (H 20000)).
Defined.

(** *** The visuals *)

(** X13.  For every status the gradient has exactly two colours and the
    icon's colour is one of them. *)
Theorem icon_colour_in_gradient
    (translate : string -> string) (s : WebSocketStatus) :
  List.length (getGradientColors s) = 2%nat /\
  In (color (getIcon translate s)) (getGradientColors s).
Proof. destruct s; cbn; auto. Qed.

(** X14.  The four members of the enum are told apart by each of the
    gradient, the icon and the icon's colour: two members with the same
    gradient, the same icon name or the same icon colour are equal. *)
Theorem enum_members_distinguishable
    (translate : string -> string) (s s' : WebSocketStatus) :
  isEnumMember s = true -> isEnumMember s' = true ->
  (getGradientColors s = getGradientColors s' -> s = s') /\
  (name (getIcon translate s) = name (getIcon translate s') -> s = s') /\
  (color (getIcon translate s) = color (getIcon translate s') -> s = s').
Proof.
  intros M M'.
  destruct s, s'; try discriminate M; try discriminate M';
    cbn; repeat split; intros E; (reflexivity || discriminate E).
Qed.

Lemma enum_members_distinguishable_witness :
  getGradientColors ERROR <> getGradientColors CONNECTING.
Proof.
  intros E.
  pose proof (proj1 (enum_members_distinguishable (fun key => key)
                       ERROR CONNECTING eq_refl eq_refl) E) as H.
  discriminate H.
Defined.

(** *** The display decision *)


